(** * DockerDaemonDeployer: deploying workloads on a remote docker daemon

    A shallow embedding of [src/deployer.py] (class [DockerDaemonDeployer])
    and the properties of its deployment orchestration: container naming,
    port allocation, composition of environment variables, the sequence of
    remote commands of [deploy_fatman] and [delete_fatman]. *)

From Stdlib Require Import ZArith Lia Ascii String DecimalString DecimalPos DecimalZ.
From stdpp Require Import base decidable option list gmap strings fin_maps fin_sets.

Open Scope string_scope.
Open Scope Z_scope.
Open Scope list_scope.

(** ** Python values used by the deployer *)

Module Py.

(** [f'{n}'] for an [int]: its decimal rendering, with a sign for negative
    numbers. *)
Definition str_of_int (n : Z) : string := NilZero.string_of_int (Z.to_int n).

(** [range(start, stop, step)] for a positive [step]. *)
Definition range3 (start stop step : Z) : list Z :=
  map (fun k : nat => start + step * Z.of_nat k)
      (seq 0 (Z.to_nat ((stop - start + step - 1) / step))).

(** [range(stop)]. *)
Definition range (stop : Z) : list Z := range3 0 stop 1.

(** Truth value of a [str] and of an [Optional[str]]: [None] and the empty
    string are false. *)
Definition truthy_str (s : string) : bool :=
  match s with EmptyString => false | String _ _ => true end.

Definition truthy_opt_str (o : option string) : bool :=
  match o with None => false | Some s => truthy_str s end.

(** Truth value of an [Optional[Dict]]: [None] and the empty dict are false. *)
Definition truthy_opt_dict (o : option (gmap string string)) : bool :=
  match o with None => false | Some d => bool_decide (d ≠ ∅) end.

(** Characters are the 8-bit ones; [code c] is the code point. *)
Definition code (c : ascii) : N := N_of_ascii c.

(** Line boundaries of [str.splitlines]: LF, VT, FF, CR, FS, GS, RS, NEL. *)
Definition is_linebreak (c : ascii) : bool :=
  bool_decide (code c ∈ [10; 11; 12; 13; 28; 29; 30; 133]%N).

(** White space removed by [str.strip]. *)
Definition is_space (c : ascii) : bool :=
  bool_decide (code c ∈ [9; 10; 11; 12; 13; 28; 29; 30; 31; 32; 133; 160]%N).

(** [splitlines_from after_cr line s]: [line] is the line read so far,
    [after_cr] tells that the previous character was a CR, so that a LF
    right after it belongs to the same boundary. *)
Fixpoint splitlines_from (after_cr : bool) (line s : string) : list string :=
  match s with
  | EmptyString => if truthy_str line then [line] else []
  | String c s' =>
      if after_cr && bool_decide (code c = 10%N) then splitlines_from false line s'
      else if is_linebreak c then line :: splitlines_from (bool_decide (code c = 13%N)) "" s'
      else splitlines_from false (line +:+ String c "") s'
  end.

(** [s.splitlines()]. *)
Definition splitlines (s : string) : list string := splitlines_from false "" s.

Fixpoint lstrip (s : string) : string :=
  match s with
  | EmptyString => ""
  | String c s' => if is_space c then lstrip s' else s
  end.

Fixpoint rstrip (s : string) : string :=
  match s with
  | EmptyString => ""
  | String c s' =>
      match rstrip s' with
      | EmptyString => if is_space c then "" else String c ""
      | r => String c r
      end
  end.

(** [s.strip()]. *)
Definition strip (s : string) : string := rstrip (lstrip s).

Fixpoint take (k : nat) (s : string) : string :=
  match k, s with
  | S k', String c s' => String c (take k' s')
  | _, _ => ""
  end.

Fixpoint drop (k : nat) (s : string) : string :=
  match k, s with
  | S k', String _ s' => drop k' s'
  | _, _ => s
  end.

Fixpoint strip_prefix (p s : string) : option string :=
  match p, s with
  | EmptyString, _ => Some s
  | String a p', String b s' => if bool_decide (a = b) then strip_prefix p' s' else None
  | String _ _, EmptyString => None
  end.

(** *** The fragment of [re] the deployer uses

    A pattern is a sequence of literals and of greedy repetitions of a
    character class ([.+], [.*], [\d+]), some of them capturing groups. *)

Inductive char_class :=
| AnyChar    (* [.]: every character but LF *)
| Digit.     (* [\d] *)

Definition in_class (cl : char_class) (c : ascii) : bool :=
  match cl with
  | AnyChar => negb (bool_decide (code c = 10%N))
  | Digit => bool_decide (48 ≤ code c ∧ code c ≤ 57)%N
  end.

Inductive re_item :=
| Lit (s : string)
| Many (cl : char_class) (at_least : nat) (group : bool).

(** Number of leading characters of [s] in the class. *)
Fixpoint span (cl : char_class) (s : string) : nat :=
  match s with
  | String c s' => if in_class cl c then S (span cl s') else O
  | EmptyString => O
  end.

(** A greedy repetition takes [k] characters, then [k - 1], ... down to
    [at_least], until the rest of the pattern matches. *)
Fixpoint backtrack (k at_least : nat) (group : bool) (s : string)
    (rest : string → option (list string)) : option (list string) :=
  match rest (drop k s) with
  | Some groups => Some (if group then take k s :: groups else groups)
  | None =>
      match k with
      | O => None
      | S k' => if (at_least <=? k')%nat then backtrack k' at_least group s rest else None
      end
  end.

(** [re.fullmatch(p, s)]: the captured groups of the first match found. *)
Fixpoint fullmatch (p : list re_item) (s : string) : option (list string) :=
  match p with
  | [] => if truthy_str s then None else Some []
  | Lit l :: p' =>
      match strip_prefix l s with
      | Some s' => fullmatch p' s'
      | None => None
      end
  | Many cl at_least group :: p' =>
      if (at_least <=? span cl s)%nat
      then backtrack (span cl s) at_least group s (fullmatch p')
      else None
  end.

(** [int(s)] for a string of decimal digits. *)
Definition int_of_digits (s : string) : Z :=
  fold_left (fun acc c => 10 * acc + (Z.of_N (code c) - 48)) (list_ascii_of_string s) 0.

End Py.

(** ** ResourceNamer: [get_container_name] (deployer.py, 167-172) *)

Definition get_container_name (resource_name : string) (container_index : Z) : string :=
  if container_index =? 0 then resource_name
  else resource_name +:+ "-" +:+ Py.str_of_int container_index.

(** ** Data model *)

Module Manifest.
Record t := { name : string; version : string }.
End Manifest.

Module Config.
Record t := {
  internal_pub_url : string;
  open_telemetry_enabled : bool;
  open_telemetry_endpoint : string;
  docker_registry : string;
  docker_registry_namespace : string
}.
End Config.

Module FatmanFamilyDto.
Record t := { name : string }.
End FatmanFamilyDto.

(** Modelled from the spec: [InfrastructureConfig] is declared in
    [plugin_config.py], which is not among the sources.  The spec gives it a
    remote endpoint address and a hostname that may be absent; the deployer
    reads them as [docker_host] and [hostname]. *)
Module InfrastructureConfig.
Record t := { docker_host : string; hostname : option string }.
End InfrastructureConfig.

(** [PluginEngine]: [fatman_runtime_env_vars] is what the registered plugins
    answer to the hook of that name, one optional mapping per plugin, in the
    order of the plugins. *)
Module PluginEngine.
Record t := { fatman_runtime_env_vars : list (option (gmap string string)) }.
End PluginEngine.

Module FatmanDto.
Record t := {
  name : string;
  version : string;
  status : string;
  create_time : Z;
  update_time : Z;
  manifest : Manifest.t;
  internal_name : string;
  image_tag : string;
  infrastructure_target : string
}.
End FatmanDto.

(** [FatmanStatus.RUNNING.value] *)
Definition FatmanStatus_RUNNING : string := "running".

(** ** Remote commands

    The deployer builds its command lines by interpolation and hands them to
    [shell] or [shell_output].  A command is kept here with the parts that
    are interpolated; the doc comment of each constructor is the command
    line of the source. *)

(** [docker run -d --name {name} {ports_mapping} {env_vars_cmd} --pull always
    --network="racetrack_default" --label fatman-name={..}
    --label fatman-version={..} {image_name}].  [ports_mapping] is the pair
    of [-p {fatman_port}:{FATMAN_INTERNAL_PORT}], absent for the empty
    string; [env_vars] is the mapping that [env_vars_cmd] renders as one
    [--env name="value"] per item. *)
Record run_options := {
  detached : bool;
  container_name : string;
  ports_mapping : option (Z * Z);
  env_vars : gmap string string;
  pull : string;
  network : string;
  labels : list (string * string);
  image_name : string
}.

Inductive command :=
(** [DOCKER_HOST={docker_host} docker network create {network}] *)
| DockerNetworkCreate (docker_host network : string)
(** [DOCKER_CONFIG={docker_config} DOCKER_HOST={docker_host} docker run ...] *)
| DockerRun (docker_config docker_host : string) (options : run_options)
(** [DOCKER_HOST={docker_host} docker ps [-a] --filter "name={name_filter}"
    --format "{format}"] *)
| DockerPs (docker_host : string) (all : bool) (name_filter format : string)
(** [DOCKER_HOST={docker_host} docker rm -f {name}] *)
| DockerRmForce (docker_host name : string).

(** What a deployer call does to the outside: remote commands, and the
    invocation of a plugin hook. *)
Inductive event :=
| Shell (c : command)
| PluginHook (hook : string).

Inductive exn :=
| AssertionError (msg : string)
(** [RuntimeError(f'{msg}{conflicts}')] *)
| RuntimeError (msg : string) (conflicts : gset string)
| CommandError (returncode : Z)
| NotImplementedError (msg : string).

(** ** Collaborators

    The command executor and the functions the deployer imports from the
    platform.  [run_command c w] is the remote host's answer to [c] in the
    world [w]: the captured output, or the exit code of a failed command,
    and the world after it; [shell] and [shell_output] raise [CommandError]
    with that code.  The authentication token is the one
    [get_auth_subject_by_fatman_family (read_fatman_family_model family)]
    resolves for the family; these two, the naming functions and the clock
    are taken to answer, their own failures are not part of the deployer. *)
Record Platform := {
  World : Type;
  run_command : command → World → (Z + string) * World;
  timestamp_now : World → Z;
  fatman_resource_name : string → string → string;
  get_fatman_image : string → string → string → string → Z → string;
  get_tracing_header_name : string;
  auth_token : string → string
}.

(** Modelled from the spec: [merge_env_vars] belongs to [racetrack_client],
    which is not among the sources.  The spec merges the second mapping into
    the first, a key of the second overwriting the same key of the first. *)
Definition merge_env_vars (env1 env2 : gmap string string) : gmap string string :=
  env2 ∪ env1.

(** ** Calls with effects

    A call runs in a world and ends in a result or an exception, the world
    it leaves, and the events it caused, in order. *)

Record outcome (W A : Type) := Outcome {
  result : exn + A;
  world_after : W;
  trace : list event
}.
Arguments Outcome {W A}.
Arguments result {W A}.
Arguments world_after {W A}.
Arguments trace {W A}.

Definition M (W A : Type) : Type := W → outcome W A.

Definition ret {W A} (a : A) : M W A := fun w => Outcome (inr a) w [].

Definition raise {W A} (e : exn) : M W A := fun w => Outcome (inl e) w [].

Definition bind {W A B} (m : M W A) (k : A → M W B) : M W B := fun w =>
  let o := m w in
  match result o with
  | inl e => Outcome (inl e) (world_after o) (trace o)
  | inr a =>
      let o' := k a (world_after o) in
      Outcome (result o') (world_after o') (trace o ++ trace o')
  end.

(** [try: m  except Exception as e: handler e] *)
Definition try_except {W A} (m : M W A) (handler : exn → M W A) : M W A := fun w =>
  let o := m w in
  match result o with
  | inl e =>
      let o' := handler e (world_after o) in
      Outcome (result o') (world_after o') (trace o ++ trace o')
  | inr a => o
  end.

Notation "x <~ m ;; k" := (bind m (fun x => k))
  (at level 20, m at level 99, k at level 200, only parsing).
Notation "m ;;; k" := (bind m (fun _ => k))
  (at level 100, k at level 200, only parsing, right associativity).

(** [for x in xs: body x] *)
Fixpoint for_each {W A} (xs : list A) (body : A → M W unit) : M W unit :=
  match xs with
  | [] => ret tt
  | x :: xs' => body x ;;; for_each xs' body
  end.

(** [assert cond, msg] *)
Definition assert_ {W} (cond : bool) (msg : string) : M W unit :=
  if cond then ret tt else raise (AssertionError msg).

(** A call that emits only events of a kind, and one that raises only
    exceptions of a kind. *)
Definition emits {W A} (Q : event → bool) (m : M W A) : Prop :=
  ∀ w, Forall (fun ev => Q ev = true) (trace (m w)).

Definition raises {W A} (E : exn → Prop) (m : M W A) : Prop :=
  ∀ w e, result (m w) = inl e → E e.

Definition is_command_error (e : exn) : Prop := ∃ returncode, e = CommandError returncode.

Section Deployer.

Variable P : Platform.

Local Abbreviation M := (M (World P)).

(** [shell_output(cmd)]: the captured output, or [CommandError]. *)
Definition shell_output (c : command) : M string := fun w =>
  let (answer, w') := run_command P c w in
  match answer with
  | inl returncode => Outcome (inl (CommandError returncode)) w' [Shell c]
  | inr output => Outcome (inr output) w' [Shell c]
  end.

(** [shell(cmd)]: as [shell_output], the output dropped. *)
Definition shell (c : command) : M unit := shell_output c ;;; ret tt.

(** [datetime_to_timestamp(now())] *)
Definition now_timestamp : M Z := fun w => Outcome (inr (timestamp_now P w)) w [].

(** [plugin_engine.invoke_plugin_hook(PluginCore.fatman_runtime_env_vars)] *)
Definition invoke_plugin_hook (plugin_engine : PluginEngine.t) : M (list (option (gmap string string))) :=
  fun w => Outcome (inr (PluginEngine.fatman_runtime_env_vars plugin_engine)) w
                   [PluginHook "fatman_runtime_env_vars"].

(** ** The deployer *)

Definition FATMAN_INTERNAL_PORT : Z := 7000.

Record DockerDaemonDeployer := {
  infra_config : InfrastructureConfig.t;
  infrastructure_target : string;
  docker_config_dir : string
}.

Variable self : DockerDaemonDeployer.

Definition docker_host : string := InfrastructureConfig.docker_host (infra_config self).

(** [_container_exists] (131-133) *)
Definition _container_exists (container_name : string) : M bool :=
  output <~ shell_output (DockerPs docker_host true ("^/" +:+ container_name +:+ "$") "{{.Names}}") ;;
  ret (bool_decide (container_name ∈ Py.splitlines output)).

(** [_delete_container_if_exists] (135-137) *)
Definition _delete_container_if_exists (container_name : string) : M unit :=
  present <~ _container_exists container_name ;;
  if (present : bool) then shell (DockerRmForce docker_host container_name) else ret tt.

(** [delete_fatman] (120-124) *)
Definition delete_fatman (fatman_name fatman_version : string) : M unit :=
  let entrypoint_resource_name := fatman_resource_name P fatman_name fatman_version in
  for_each (Py.range 2) (fun container_index =>
    let container_name := get_container_name entrypoint_resource_name container_index in
    _delete_container_if_exists container_name).

(** [fatman_exists] (126-129) *)
Definition fatman_exists (fatman_name fatman_version : string) : M bool :=
  let resource_name := fatman_resource_name P fatman_name fatman_version in
  let container_name := get_container_name resource_name 0 in
  _container_exists container_name.

(** The pattern [r'fatman-(.+) .+:(\d+)->.*'] of [_get_next_fatman_port]. *)
Definition port_line_pattern : list Py.re_item :=
  [Py.Lit "fatman-"; Py.Many Py.AnyChar 1 true; Py.Lit " "; Py.Many Py.AnyChar 1 false;
   Py.Lit ":"; Py.Many Py.Digit 1 true; Py.Lit "->"; Py.Many Py.AnyChar 0 false].

(** The loop of lines 142-146: the ports published by the listed containers. *)
Definition occupied_ports (output : string) : gset Z :=
  fold_left (fun occupied line =>
    match Py.fullmatch port_line_pattern (Py.strip line) with
    | Some [_; port] => {[ Py.int_of_digits port ]} ∪ occupied
    | _ => occupied
    end) (Py.splitlines output) ∅.

(** The loop of lines 147-150 over the candidates [ports]. *)
Fixpoint first_unoccupied (ports : list Z) (occupied_ports : gset Z) : Z :=
  match ports with
  | [] => 8000
  | port :: ports' =>
      if bool_decide (port ∉ occupied_ports) then port
      else first_unoccupied ports' occupied_ports
  end.

Definition next_port (occupied_ports : gset Z) : Z :=
  first_unoccupied (Py.range3 7000 8000 10) occupied_ports.

(** [_get_next_fatman_port] (139-150).  In the f-string of the source the
    doubled braces are escapes, so the format that reaches docker is
    [{.Names} {.Ports}]. *)
Definition _get_next_fatman_port : M Z :=
  output <~ shell_output (DockerPs docker_host false "^/fatman-" "{.Names} {.Ports}") ;;
  ret (next_port (occupied_ports output)).

(** [common_env_vars] as built in lines 59-70. *)
Definition common_env_vars (manifest : Manifest.t) (config : Config.t) (token : string)
    (deployment_timestamp : Z) (containers_num : Z) (entrypoint_resource_name : string)
    : gmap string string :=
  let common_env_vars : gmap string string :=
    <["REQUEST_TRACING_HEADER" := get_tracing_header_name P]>
    (<["FATMAN_DEPLOYMENT_TIMESTAMP" := Py.str_of_int deployment_timestamp]>
    (<["AUTH_TOKEN" := token]>
    (<["FATMAN_NAME" := Manifest.name manifest]>
    (<["PUB_URL" := Config.internal_pub_url config]> ∅)))) in
  let common_env_vars :=
    if Config.open_telemetry_enabled config
    then <["OPENTELEMETRY_ENDPOINT" := Config.open_telemetry_endpoint config]> common_env_vars
    else common_env_vars in
  if 1 <? containers_num
  then <["FATMAN_USER_MODULE_HOSTNAME" := get_container_name entrypoint_resource_name 1]> common_env_vars
  else common_env_vars.

(** [conflicts] of line 72. *)
Definition conflicts (common_env_vars runtime_env_vars : gmap string string) : gset string :=
  dom common_env_vars ∩ dom runtime_env_vars.

(** The loop of lines 77-79. *)
Definition merge_plugin_vars (runtime_env_vars : gmap string string)
    (plugin_vars_list : list (option (gmap string string))) : gmap string string :=
  fold_left (fun runtime_env_vars plugin_vars =>
    if Py.truthy_opt_dict plugin_vars
    then merge_env_vars runtime_env_vars (default ∅ plugin_vars)
    else runtime_env_vars) plugin_vars_list runtime_env_vars.

(** The options of the command of lines 94-106 for one container of the
    topology. *)
Definition container_options (manifest : Manifest.t) (config : Config.t) (tag : string)
    (entrypoint_resource_name : string) (fatman_port : Z)
    (runtime_env_vars : gmap string string) (container_index : Z) : run_options :=
  let container_name := get_container_name entrypoint_resource_name container_index in
  let image_name := get_fatman_image P (Config.docker_registry config)
                      (Config.docker_registry_namespace config)
                      (Manifest.name manifest) tag container_index in
  let ports_mapping :=
    if container_index =? 0 then Some (fatman_port, FATMAN_INTERNAL_PORT) else None in
  {| detached := true;
     container_name := container_name;
     ports_mapping := ports_mapping;
     env_vars := runtime_env_vars;
     pull := "always";
     network := "racetrack_default";
     labels := [("fatman-name", Manifest.name manifest);
                ("fatman-version", Manifest.version manifest)];
     image_name := image_name |}.

(** The command of lines 94-106. *)
Definition run_container (manifest : Manifest.t) (config : Config.t) (tag : string)
    (entrypoint_resource_name : string) (fatman_port : Z)
    (runtime_env_vars : gmap string string) (container_index : Z) : command :=
  DockerRun (docker_config_dir self) docker_host
    (container_options manifest config tag entrypoint_resource_name fatman_port
                       runtime_env_vars container_index).

(** [deploy_fatman] (36-118) *)
Definition deploy_fatman (manifest : Manifest.t) (config : Config.t)
    (plugin_engine : PluginEngine.t) (tag : string)
    (runtime_env_vars : gmap string string) (family : FatmanFamilyDto.t)
    (containers_num : Z) : M FatmanDto.t :=
  present <~ fatman_exists (Manifest.name manifest) (Manifest.version manifest) ;;
  (if (present : bool)
   then delete_fatman (Manifest.name manifest) (Manifest.version manifest)
   else ret tt) ;;;
  fatman_port <~ _get_next_fatman_port ;;
  let entrypoint_resource_name :=
    fatman_resource_name P (Manifest.name manifest) (Manifest.version manifest) in
  deployment_timestamp <~ now_timestamp ;;
  let token := auth_token P (FatmanFamilyDto.name family) in
  assert_ (Py.truthy_opt_str (InfrastructureConfig.hostname (infra_config self)))
          "hostname of a docker daemon must be set" ;;;
  let internal_name :=
    default "" (InfrastructureConfig.hostname (infra_config self)) +:+ ":" +:+ Py.str_of_int fatman_port in
  let common := common_env_vars manifest config token deployment_timestamp
                                containers_num entrypoint_resource_name in
  if bool_decide (conflicts common runtime_env_vars ≠ ∅)
  then raise (RuntimeError "found illegal runtime env vars, which conflict with reserved names: "
                           (conflicts common runtime_env_vars))
  else
  let runtime_env_vars := merge_env_vars runtime_env_vars common in
  plugin_vars_list <~ invoke_plugin_hook plugin_engine ;;
  let runtime_env_vars := merge_plugin_vars runtime_env_vars plugin_vars_list in
  try_except (shell (DockerNetworkCreate docker_host "racetrack_default"))
    (fun e => match e with
              | CommandError returncode => if returncode =? 1 then ret tt else raise e
              | _ => raise e
              end) ;;;
  for_each (Py.range containers_num) (fun container_index =>
    shell (run_container manifest config tag entrypoint_resource_name fatman_port
                         runtime_env_vars container_index)) ;;;
  ret {| FatmanDto.name := Manifest.name manifest;
         FatmanDto.version := Manifest.version manifest;
         FatmanDto.status := FatmanStatus_RUNNING;
         FatmanDto.create_time := deployment_timestamp;
         FatmanDto.update_time := deployment_timestamp;
         FatmanDto.manifest := manifest;
         FatmanDto.internal_name := internal_name;
         FatmanDto.image_tag := tag;
         FatmanDto.infrastructure_target := infrastructure_target self |}.

(** [save_fatman_secrets] and [get_fatman_secrets] (152-165) *)
Definition save_fatman_secrets (fatman_name fatman_version : string) : M unit :=
  raise (NotImplementedError "managing secrets is not supported on local docker").

Definition get_fatman_secrets (fatman_name fatman_version : string) : M unit :=
  raise (NotImplementedError "managing secrets is not supported on local docker").

End Deployer.

(** ** Stages of [deploy_fatman]

    The body of [deploy_fatman] read as a sequence of stages, each one a
    block of lines of the source; [deploy_fatman_stages] below shows that
    the sequence is the function. *)

Section Stages.

Variable P : Platform.
Variable self : DockerDaemonDeployer.

Local Abbreviation M := (M (World P)).

(** The two listings and the removal the deployer issues. *)
Definition existence_check (container_name : string) : command :=
  DockerPs (docker_host self) true ("^/" +:+ container_name +:+ "$") "{{.Names}}".

Definition port_listing : command :=
  DockerPs (docker_host self) false "^/fatman-" "{.Names} {.Ports}".

Definition removal (container_name : string) : command :=
  DockerRmForce (docker_host self) container_name.

Definition network_creation : command :=
  DockerNetworkCreate (docker_host self) "racetrack_default".

(** Lines 47-50: replace a former instance, pick the port. *)
Definition deploy_prelude (manifest : Manifest.t) : M Z :=
  present <~ fatman_exists P self (Manifest.name manifest) (Manifest.version manifest) ;;
  (if (present : bool)
   then delete_fatman P self (Manifest.name manifest) (Manifest.version manifest)
   else ret tt) ;;;
  _get_next_fatman_port P self.

(** Lines 72-79: the conflict check, the merge of the reserved variables and
    of what the plugins contribute. *)
Definition compose_env_vars (runtime_env_vars common : gmap string string)
    (plugin_engine : PluginEngine.t) : M (gmap string string) :=
  if bool_decide (conflicts common runtime_env_vars ≠ ∅)
  then raise (RuntimeError "found illegal runtime env vars, which conflict with reserved names: "
                           (conflicts common runtime_env_vars))
  else
    plugin_vars_list <~ invoke_plugin_hook P plugin_engine ;;
    ret (merge_plugin_vars (merge_env_vars runtime_env_vars common) plugin_vars_list).

(** Lines 82-86: the shared network, a failure with exit code 1 tolerated. *)
Definition ensure_network : M unit :=
  try_except (shell P network_creation)
    (fun e => match e with
              | CommandError returncode => if returncode =? 1 then ret tt else raise e
              | _ => raise e
              end).

(** Lines 82-106: the shared network, then one container per index. *)
Definition launch_containers (manifest : Manifest.t) (config : Config.t) (tag : string)
    (entrypoint_resource_name : string) (fatman_port : Z)
    (runtime_env_vars : gmap string string) (containers_num : Z) : M unit :=
  ensure_network ;;;
  for_each (Py.range containers_num) (fun container_index =>
    shell P (run_container P self manifest config tag entrypoint_resource_name fatman_port
                           runtime_env_vars container_index)).

(** Lines 108-118: the descriptor. *)
Definition descriptor (manifest : Manifest.t) (tag : string) (deployment_timestamp : Z)
    (fatman_port : Z) : FatmanDto.t :=
  {| FatmanDto.name := Manifest.name manifest;
     FatmanDto.version := Manifest.version manifest;
     FatmanDto.status := FatmanStatus_RUNNING;
     FatmanDto.create_time := deployment_timestamp;
     FatmanDto.update_time := deployment_timestamp;
     FatmanDto.manifest := manifest;
     FatmanDto.internal_name :=
       default "" (InfrastructureConfig.hostname (infra_config self)) +:+ ":" +:+ Py.str_of_int fatman_port;
     FatmanDto.image_tag := tag;
     FatmanDto.infrastructure_target := infrastructure_target self |}.

(** The reserved variables of a call whose clock read [deployment_timestamp]. *)
Definition reserved_env_vars (manifest : Manifest.t) (config : Config.t)
    (family : FatmanFamilyDto.t) (containers_num : Z) (deployment_timestamp : Z)
    : gmap string string :=
  common_env_vars P manifest config (auth_token P (FatmanFamilyDto.name family))
    deployment_timestamp containers_num
    (fatman_resource_name P (Manifest.name manifest) (Manifest.version manifest)).

(** The environment the containers of a call get when its clock read
    [deployment_timestamp]. *)
Definition final_env_vars (manifest : Manifest.t) (config : Config.t)
    (plugin_engine : PluginEngine.t) (runtime_env_vars : gmap string string)
    (family : FatmanFamilyDto.t) (containers_num : Z) (deployment_timestamp : Z)
    : gmap string string :=
  merge_plugin_vars
    (merge_env_vars runtime_env_vars
       (reserved_env_vars manifest config family containers_num deployment_timestamp))
    (PluginEngine.fatman_runtime_env_vars plugin_engine).

(** What follows the prelude, the port known. *)
Definition deploy_with_port (manifest : Manifest.t) (config : Config.t)
    (plugin_engine : PluginEngine.t) (tag : string)
    (runtime_env_vars : gmap string string) (family : FatmanFamilyDto.t)
    (containers_num : Z) (fatman_port : Z) : M FatmanDto.t :=
  deployment_timestamp <~ now_timestamp P ;;
  assert_ (Py.truthy_opt_str (InfrastructureConfig.hostname (infra_config self)))
          "hostname of a docker daemon must be set" ;;;
  env <~ compose_env_vars runtime_env_vars
           (reserved_env_vars manifest config family containers_num deployment_timestamp)
           plugin_engine ;;
  launch_containers manifest config tag
    (fatman_resource_name P (Manifest.name manifest) (Manifest.version manifest))
    fatman_port env containers_num ;;;
  ret (descriptor manifest tag deployment_timestamp fatman_port).

Definition deploy_stages (manifest : Manifest.t) (config : Config.t)
    (plugin_engine : PluginEngine.t) (tag : string)
    (runtime_env_vars : gmap string string) (family : FatmanFamilyDto.t)
    (containers_num : Z) : M FatmanDto.t :=
  fatman_port <~ deploy_prelude manifest ;;
  deploy_with_port manifest config plugin_engine tag runtime_env_vars family
                   containers_num fatman_port.

End Stages.

(** ** Events of a trace *)

Definition is_launch (ev : event) : bool :=
  match ev with Shell (DockerRun _ _ _) => true | _ => false end.

Definition is_listing (ev : event) : bool :=
  match ev with Shell (DockerPs _ _ _ _) => true | _ => false end.

Definition is_removal (ev : event) : bool :=
  match ev with Shell (DockerRmForce _ _) => true | _ => false end.

Definition is_network_creation (ev : event) : bool :=
  match ev with Shell (DockerNetworkCreate _ _) => true | _ => false end.

Definition is_hook (ev : event) : bool :=
  match ev with PluginHook _ => true | _ => false end.

(** The options of the containers launched, in the order of the launches. *)
Definition launched (tr : list event) : list run_options :=
  omap (fun ev => match ev with Shell (DockerRun _ _ o) => Some o | _ => None end) tr.

(** Number of invocations of a plugin hook. *)
Definition hook_invocations (tr : list event) : nat := length (filter (fun ev => is_hook ev = true) tr).

(** The events of the slots of [delete_fatman]. *)
Definition slot_event (ev : event) : bool := is_listing ev || is_removal ev.

(** The check returned and found the container. *)
Definition found {W} (check : outcome W bool) : bool :=
  match result check with
  | inr true => true
  | _ => false
  end.

(** ** Notions the properties are stated with *)

(** The candidates of the scan: 7000, 7010, ..., 7990. *)
Definition candidate (port : Z) : Prop := 7000 ≤ port < 8000 ∧ (port - 7000) mod 10 = 0.

(** The value that the last mapping of the list binding [key] gives it. *)
Fixpoint last_binding (key : string) (plugin_vars_list : list (option (gmap string string)))
    : option string :=
  match plugin_vars_list with
  | [] => None
  | plugin_vars :: later =>
      match last_binding key later with
      | Some value => Some value
      | None => plugin_vars ≫= fun d => d !! key
      end
  end.

(** ** A docker daemon

    One executor to run the deployer on: a host with its containers and
    networks.  A name filter is read the way the deployer writes it, an
    anchored prefix [^/...] closed or not by [$], the characters between
    taken as they are; the format is a template in which [{{.Names}}] and
    [{{.Ports}}] stand for the name and the published ports of a row, and
    every other character for itself. *)
Module Docker.

Record container := { cname : string; running : bool; published : option Z }.

Record host := { containers : list container; networks : list string; clock : Z }.

Definition LF : string := String (ascii_of_nat 10) "".

Definition ports_column (c : container) : string :=
  match published c with
  | Some p => "0.0.0.0:" +:+ Py.str_of_int p +:+ "->7000/tcp"
  | None => ""
  end.

(** [skip] characters of the template were consumed by the last action. *)
Fixpoint render_from (skip : nat) (format : string) (c : container) : string :=
  match skip, format with
  | _, EmptyString => ""
  | S skip', String _ format' => render_from skip' format' c
  | O, String ch format' =>
      if bool_decide (is_Some (Py.strip_prefix "{{.Names}}" format))
      then cname c +:+ render_from 9 format' c
      else if bool_decide (is_Some (Py.strip_prefix "{{.Ports}}" format))
      then ports_column c +:+ render_from 9 format' c
      else String ch (render_from O format' c)
  end.

Definition render (format : string) (c : container) : string := render_from O format c.

Fixpoint split_last (s : string) : option (string * ascii) :=
  match s with
  | EmptyString => None
  | String ch s' =>
      match split_last s' with
      | None => Some ("", ch)
      | Some (init, last) => Some (String ch init, last)
      end
  end.

Definition name_matches (name_filter name : string) : bool :=
  match Py.strip_prefix "^/" name_filter with
  | Some r =>
      match split_last r with
      | Some (init, "$"%char) => bool_decide (init = name)
      | _ => bool_decide (is_Some (Py.strip_prefix r name))
      end
  | None => false
  end.

Definition has_container (name : string) (h : host) : bool :=
  bool_decide (name ∈ map cname (containers h)).

Definition exec (c : command) (h : host) : (Z + string) * host :=
  match c with
  | DockerPs _ all name_filter format =>
      let rows := filter (fun c => (all || running c) && name_matches name_filter (cname c) = true)
                         (containers h) in
      (inr (String.concat "" (map (fun c => render format c +:+ LF) rows)), h)
  | DockerRmForce _ name =>
      if has_container name h
      then (inr (name +:+ LF),
            {| containers := filter (fun c => cname c ≠ name) (containers h);
               networks := networks h; clock := clock h |})
      else (inl 1, h)
  | DockerNetworkCreate _ network =>
      if bool_decide (network ∈ networks h) then (inl 1, h)
      else (inr (network +:+ LF),
            {| containers := containers h; networks := networks h ++ [network];
               clock := clock h |})
  | DockerRun _ _ o =>
      if has_container (container_name o) h then (inl 125, h)
      else (inr (container_name o +:+ LF),
            {| containers := containers h ++
                 [{| cname := container_name o; running := true;
                     published := fst <$> ports_mapping o |}];
               networks := networks h; clock := clock h |})
  end.

Fixpoint dots_to_dashes (s : string) : string :=
  match s with
  | EmptyString => EmptyString
  | String ch s' => String (if bool_decide (ch = "."%char) then "-"%char else ch) (dots_to_dashes s')
  end.

Definition platform : Platform := {|
  World := host;
  run_command := exec;
  timestamp_now := clock;
  fatman_resource_name := fun name version =>
    dots_to_dashes ("fatman-" +:+ name +:+ "-v-" +:+ version);
  get_fatman_image := fun registry namespace name tag index =>
    registry +:+ "/" +:+ namespace +:+ "/fatman-" +:+ name +:+ "-" +:+ Py.str_of_int index +:+ ":" +:+ tag;
  get_tracing_header_name := "traceparent";
  auth_token := fun family => "token-of-" +:+ family
|}.

(** A deployer, a workload and a configuration to run examples on. *)
Definition deployer : DockerDaemonDeployer :=
  {| infra_config := {| InfrastructureConfig.docker_host := "ssh://dev@10.0.0.7";
                        InfrastructureConfig.hostname := Some "10.0.0.7" |};
     infrastructure_target := "remote-docker";
     docker_config_dir := "/home/racetrack/.docker" |}.

Definition deployer_without_hostname : DockerDaemonDeployer :=
  {| infra_config := {| InfrastructureConfig.docker_host := "ssh://dev@10.0.0.7";
                        InfrastructureConfig.hostname := None |};
     infrastructure_target := "remote-docker";
     docker_config_dir := "/home/racetrack/.docker" |}.

Definition adder : Manifest.t := {| Manifest.name := "adder"; Manifest.version := "0.0.1" |}.

Definition config : Config.t :=
  {| Config.internal_pub_url := "http://pub:7005/pub";
     Config.open_telemetry_enabled := false;
     Config.open_telemetry_endpoint := "";
     Config.docker_registry := "registry.local";
     Config.docker_registry_namespace := "racetrack" |}.

Definition no_plugins : PluginEngine.t := {| PluginEngine.fatman_runtime_env_vars := [] |}.

Definition family : FatmanFamilyDto.t := {| FatmanFamilyDto.name := "adder" |}.

Definition empty_host : host := {| containers := []; networks := []; clock := 1700000000 |}.

(** A host on which both containers of the workload [adder] run. *)
Definition host_with_adder : host :=
  {| containers := [ {| cname := "fatman-adder-v-0-0-1"; running := true; published := Some 7000 |};
                     {| cname := "fatman-adder-v-0-0-1-1"; running := true; published := None |} ];
     networks := ["racetrack_default"]; clock := 1700000000 |}.

End Docker.


(** *** Deployments on that daemon *)

Module Runs.

Import Docker.

Definition base : string := fatman_resource_name platform "adder" "0.0.1".

Definition key_hostname : string := "FATMAN_USER_MODULE_HOSTNAME".

(** Three containers on an empty host. *)
Definition three_containers : outcome host FatmanDto.t :=
  deploy_fatman platform deployer adder config no_plugins "latest" ∅ family 3 empty_host.

(** A redeployment by a deployer whose hostname is missing. *)
Definition redeploy_without_hostname : outcome host FatmanDto.t :=
  deploy_fatman platform deployer_without_hostname adder config no_plugins "latest" ∅
                family 1 host_with_adder.

(** Runtime variables that bind the reserved key [FATMAN_NAME]. *)
Definition colliding : gmap string string := {[ "FATMAN_NAME" := "other" ]}.

Definition redeploy_with_conflict : outcome host FatmanDto.t :=
  deploy_fatman platform deployer adder config no_plugins "latest" colliding
                family 1 host_with_adder.

Definition deploy_with_conflict : outcome host FatmanDto.t :=
  deploy_fatman platform deployer adder config no_plugins "latest" colliding
                family 1 empty_host.

(** One container, the caller binding the secondary-hostname key. *)
Definition own_hostname : gmap string string := {[ key_hostname := "elsewhere" ]}.

Definition deploy_own_hostname : outcome host FatmanDto.t :=
  deploy_fatman platform deployer adder config no_plugins "latest" own_hostname
                family 1 empty_host.

(** Two deployments of the same workload, one after the other. *)
Definition deploy_twice : outcome host FatmanDto.t :=
  deploy_fatman platform deployer adder config no_plugins "latest" ∅ family 2
    (world_after (deploy_fatman platform deployer adder config no_plugins "latest" ∅
                                family 2 empty_host)).

(** Three plugins: the second contributes nothing, the third binds again a
    key of the first and a reserved key. *)
Definition three_plugins : PluginEngine.t :=
  {| PluginEngine.fatman_runtime_env_vars :=
       [Some {[ "LOG_LEVEL" := "debug"; "REGION" := "north" ]};
        None;
        Some {[ "REGION" := "south"; "FATMAN_NAME" := "renamed" ]}] |}.

Definition deploy_three_plugins : outcome host FatmanDto.t :=
  deploy_fatman platform deployer adder config three_plugins "latest" ∅ family 1 empty_host.

End Runs.

(** ** Lines of the port listing *)

(** What one line of the listing adds to the occupied ports (lines 144-146). *)
Definition port_of_line (line : string) : option Z :=
  match Py.fullmatch port_line_pattern (Py.strip line) with
  | Some [_; port] => Some (Py.int_of_digits port)
  | _ => None
  end.

Fixpoint all_in_class (cl : Py.char_class) (s : string) : bool :=
  match s with
  | EmptyString => true
  | String c s' => Py.in_class cl c && all_in_class cl s'
  end.

(** [matches p s groups]: the string [s] is the literals and repetitions of
    [p] one after the other, [groups] the parts the capturing ones took. *)
Inductive matches : list Py.re_item → string → list string → Prop :=
| matches_end : matches [] "" []
| matches_lit (l : string) (p : list Py.re_item) (s : string) (groups : list string) :
    matches p s groups → matches (Py.Lit l :: p) (l +:+ s) groups
| matches_many (cl : Py.char_class) (at_least : nat) (group : bool) (p : list Py.re_item)
    (part s : string) (groups : list string) :
    all_in_class cl part = true →
    (at_least ≤ String.length part)%nat →
    matches p s groups →
    matches (Py.Many cl at_least group :: p) (part +:+ s)
            (if group then part :: groups else groups).

(** ** A host with a leftover container *)

Module Leftover.

Import Docker.

(** The containers of indices 0, 1 and 2 of [adder] run, as after a
    deployment with three containers. *)
Definition host_with_three : host :=
  {| containers := [ {| cname := "fatman-adder-v-0-0-1"; running := true; published := Some 7000 |};
                     {| cname := "fatman-adder-v-0-0-1-1"; running := true; published := None |};
                     {| cname := "fatman-adder-v-0-0-1-2"; running := true; published := None |} ];
     networks := ["racetrack_default"]; clock := 1700000100 |}.

(** Redeploying the three containers on it. *)
Definition redeploy_three : outcome host FatmanDto.t :=
  deploy_fatman platform deployer adder config no_plugins "latest" ∅ family 3 host_with_three.

(** A deployment with no container. *)
Definition deploy_none : outcome host FatmanDto.t :=
  deploy_fatman platform deployer adder config no_plugins "latest" ∅ family 0 empty_host.

(** Redeploying two containers where the network exists. *)
Definition redeploy_two : outcome host FatmanDto.t :=
  deploy_fatman platform deployer adder config no_plugins "latest" ∅ family 2 host_with_adder.

End Leftover.

(** ** A host with published ports *)

Module Ports.

Import Docker.

(** Three workloads run, publishing the ports 7000, 7010 and 7020. *)
Definition host_with_ports : host :=
  {| containers := [ {| cname := "fatman-adder-v-0-0-1"; running := true; published := Some 7000 |};
                     {| cname := "fatman-mul-v-1-2-0"; running := true; published := Some 7010 |};
                     {| cname := "fatman-neg-v-0-3-0"; running := true; published := Some 7020 |} ];
     networks := ["racetrack_default"]; clock := 1700000200 |}.

(** The ports that the running containers of a host publish. *)
Definition published_ports (h : host) : gset Z :=
  list_to_set (omap published (filter (fun c => running c = true) (containers h))).

(** What docker prints for one container under the format of line 141,
    which names no field. *)
Definition format_line : string := "{.Names} {.Ports}".

End Ports.

(** ** The plugin (plugin.py)

    [Plugin.__init__] prepares the credentials of the docker client and of
    ssh under the home directory.  The file system is a collaborator as the
    command executor is: [fs_run op fs] is its answer to an operation, the
    number of an [OSError] or the value returned, and the file system after
    it.  A path is kept as the source builds it, [dir / name]. *)

Module Plugin.

Inductive path :=
| Path (p : string)
| Div (dir : path) (name : string).

Inductive fs_op :=
| IsDir (p : path)
| Mkdir (p : path) (exist_ok : bool)
| WriteText (p : path) (content : string)
| Chmod (p : path) (mode : N).

Inductive event :=
| Fs (op : fs_op)
| LogInfo (msg : string).

Record Files := {
  FS : Type;
  fs_run : fs_op → FS → (Z + bool) * FS
}.

(** [PluginConfig] is declared in [plugin_config.py], not among the sources;
    its fields are the ones [plugin.py] reads, a dict being the list of its
    items in their order. *)
Module PluginConfig.
Record t := {
  docker_config : option string;
  ssh : option (list (string * string));
  infrastracture_targets : list (string * InfrastructureConfig.t)
}.
End PluginConfig.

Record Plugin := { plugin_config : PluginConfig.t }.

(** A call ends in a value or in the number of an [OSError], the file
    system it leaves, and its events in order. *)
Record run (W A : Type) := Run {
  result : Z + A;
  fs_after : W;
  trace : list event
}.
Arguments Run {W A}.
Arguments result {W A}.
Arguments fs_after {W A}.
Arguments trace {W A}.

Definition M (W A : Type) : Type := W → run W A.

Definition ret {W A} (a : A) : M W A := fun fs => Run (inr a) fs [].

Definition bind {W A B} (m : M W A) (k : A → M W B) : M W B := fun fs =>
  let o := m fs in
  match result o with
  | inl e => Run (inl e) (fs_after o) (trace o)
  | inr a =>
      let o' := k a (fs_after o) in
      Run (result o') (fs_after o') (trace o ++ trace o')
  end.

Fixpoint for_each {W A} (xs : list A) (body : A → M W unit) : M W unit :=
  match xs with
  | [] => ret tt
  | x :: xs' => bind (body x) (fun _ => for_each xs' body)
  end.

Section Init.

Variable F : Files.

(** One operation of the file system. *)
Definition fs (op : fs_op) : M (FS F) bool := fun w =>
  let (answer, w') := fs_run F op w in
  match answer with
  | inl errno => Run (inl errno) w' [Fs op]
  | inr value => Run (inr value) w' [Fs op]
  end.

(** [logger.info(msg)] *)
Definition log_info (msg : string) : M (FS F) unit := fun w => Run (inr tt) w [LogInfo msg].

Definition home_dir : path := Path "/home/racetrack".

(** Truth value of an [Optional[Dict]] given by its items. *)
Definition truthy_items {A} (o : option (list A)) : bool :=
  match o with
  | Some (_ :: _) => true
  | _ => false
  end.

Local Notation "'let!' x := m 'in' k" := (bind m (fun x => k))
  (at level 10, x name, m at level 99, k at level 200, only parsing).
Local Notation "m >>> k" := (bind m (fun _ => k))
  (at level 100, k at level 200, only parsing, right associativity).

(** [Plugin.__init__] (22-48), from the parsed configuration on. *)
Definition __init__ (plugin_config : PluginConfig.t) : M (FS F) Plugin :=
  let! is_dir := fs (IsDir home_dir) in
  (if (is_dir : bool) then
     (if Py.truthy_opt_str (PluginConfig.docker_config plugin_config) then
        let docker_dir := Div home_dir ".docker" in
        fs (Mkdir docker_dir true) >>>
        let dest_config_file := Div docker_dir "config.json" in
        fs (WriteText dest_config_file
              (default "" (PluginConfig.docker_config plugin_config))) >>>
        fs (Chmod dest_config_file 384) >>>
        log_info "Docker Registry config has been prepared"
      else ret tt) >>>
     (if truthy_items (PluginConfig.ssh plugin_config) then
        let ssh_dir := Div home_dir ".ssh" in
        fs (Mkdir ssh_dir true) >>>
        for_each (default [] (PluginConfig.ssh plugin_config)) (fun item =>
          let dest_file := Div ssh_dir item.1 in
          fs (WriteText dest_file item.2) >>>
          fs (Chmod dest_file 384) >>>
          ret tt) >>>
        log_info "SSH config has been prepared"
      else ret tt)
   else ret tt) >>>
  let infra_num := length (PluginConfig.infrastracture_targets plugin_config) in
  log_info ("Docker Daemon plugin loaded with " +:+ Py.str_of_int (Z.of_nat infra_num)
            +:+ " infrastructure targets") >>>
  ret {| plugin_config := plugin_config |}.

(** Lines 28-45 of [__init__]: the credentials, the home directory being
    one. *)
Definition prepare_credentials (plugin_config : PluginConfig.t) : M (FS F) unit :=
  (if Py.truthy_opt_str (PluginConfig.docker_config plugin_config) then
     let docker_dir := Div home_dir ".docker" in
     fs (Mkdir docker_dir true) >>>
     let dest_config_file := Div docker_dir "config.json" in
     fs (WriteText dest_config_file
           (default "" (PluginConfig.docker_config plugin_config))) >>>
     fs (Chmod dest_config_file 384) >>>
     log_info "Docker Registry config has been prepared"
   else ret tt) >>>
  (if truthy_items (PluginConfig.ssh plugin_config) then
     let ssh_dir := Div home_dir ".ssh" in
     fs (Mkdir ssh_dir true) >>>
     for_each (default [] (PluginConfig.ssh plugin_config)) (fun item =>
       let dest_file := Div ssh_dir item.1 in
       fs (WriteText dest_file item.2) >>>
       fs (Chmod dest_file 384) >>>
       ret tt) >>>
     log_info "SSH config has been prepared"
   else ret tt).

(** Lines 47-48 of [__init__]. *)
Definition loaded (plugin_config : PluginConfig.t) : M (FS F) Plugin :=
  let infra_num := length (PluginConfig.infrastracture_targets plugin_config) in
  log_info ("Docker Daemon plugin loaded with " +:+ Py.str_of_int (Z.of_nat infra_num)
            +:+ " infrastructure targets") >>>
  ret {| plugin_config := plugin_config |}.

End Init.

(** The operations of the file system in a trace, in order. *)
Definition fs_ops (tr : list event) : list fs_op :=
  omap (fun ev => match ev with Fs op => Some op | LogInfo _ => None end) tr.

(** The operations of a start-up that meets no error: the query of the home
    directory and, when it is one, the directory, the file and the mode of
    the docker configuration, then the directory of ssh and, per item, the
    file and its mode. *)
Definition credentials_ops (plugin_config : PluginConfig.t) : list fs_op :=
  (if Py.truthy_opt_str (PluginConfig.docker_config plugin_config)
   then [Mkdir (Div home_dir ".docker") true;
         WriteText (Div (Div home_dir ".docker") "config.json")
                   (default "" (PluginConfig.docker_config plugin_config));
         Chmod (Div (Div home_dir ".docker") "config.json") 384]
   else [])
  ++ (if truthy_items (PluginConfig.ssh plugin_config)
      then Mkdir (Div home_dir ".ssh") true
           :: flat_map (fun item : string * string =>
                          [WriteText (Div (Div home_dir ".ssh") item.1) item.2;
                           Chmod (Div (Div home_dir ".ssh") item.1) 384])
                       (default [] (PluginConfig.ssh plugin_config))
      else []).

(** Operations in which every file written gets the mode 0o600 next, and
    nothing else is done but making directories. *)
Inductive paired : list fs_op → Prop :=
| paired_nil : paired []
| paired_mkdir (dir : path) (exist_ok : bool) (ops : list fs_op) :
    paired ops → paired (Mkdir dir exist_ok :: ops)
| paired_file (p : path) (content : string) (ops : list fs_op) :
    paired ops → paired (WriteText p content :: Chmod p 384 :: ops).

(** A call that issues a prefix of [ops], all of them when it returns. *)
Definition issues {W A} (m : M W A) (ops : list fs_op) : Prop :=
  ∀ w, ∃ k : nat,
    (k ≤ length ops)%nat
    ∧ fs_ops (trace (m w)) = take k ops
    ∧ (∀ a, result (m w) = inr a → k = length ops).

(** A file system in memory: the directories, and the files with their
    content and mode, written with the mode 0o644 of a default umask. *)
Record disk := { dirs : list path; files : list (path * (string * N)) }.

Fixpoint path_eqb (p q : path) : bool :=
  match p, q with
  | Path a, Path b => bool_decide (a = b)
  | Div d a, Div e b => path_eqb d e && bool_decide (a = b)
  | _, _ => false
  end.

Definition is_dir_on (d : disk) (p : path) : bool := existsb (path_eqb p) (dirs d).

Fixpoint set_file (p : path) (entry : string * N) (fl : list (path * (string * N)))
    : list (path * (string * N)) :=
  match fl with
  | [] => [(p, entry)]
  | (q, e) :: fl' => if path_eqb p q then (p, entry) :: fl' else (q, e) :: set_file p entry fl'
  end.

Fixpoint get_file (p : path) (fl : list (path * (string * N))) : option (string * N) :=
  match fl with
  | [] => None
  | (q, e) :: fl' => if path_eqb p q then Some e else get_file p fl'
  end.

Definition disk_run (op : fs_op) (d : disk) : (Z + bool) * disk :=
  match op with
  | IsDir p => (inr (is_dir_on d p), d)
  | Mkdir p exist_ok =>
      if is_dir_on d p then (if exist_ok then inr true else inl 17, d)
      else (inr true, {| dirs := dirs d ++ [p]; files := files d |})
  | WriteText p content =>
      match p with
      | Div dir _ =>
          if is_dir_on d dir
          then (inr true, {| dirs := dirs d; files := set_file p (content, 420%N) (files d) |})
          else (inl 2, d)
      | Path _ => (inl 2, d)
      end
  | Chmod p mode =>
      match get_file p (files d) with
      | Some (content, _) =>
          (inr true, {| dirs := dirs d; files := set_file p (content, mode) (files d) |})
      | None => (inl 2, d)
      end
  end.

Definition disk_files : Files := {| FS := disk; fs_run := disk_run |}.

Definition with_home : disk := {| dirs := [home_dir]; files := [] |}.

Definition without_home : disk := {| dirs := []; files := [] |}.

Definition credentials : PluginConfig.t :=
  {| PluginConfig.docker_config := Some "{ }";
     PluginConfig.ssh := Some [("id_rsa", "KEY"); ("config", "Host *")];
     PluginConfig.infrastracture_targets := [] |}.

End Plugin.

(** * Properties *)

Example get_container_name_0 : get_container_name "fatman-adder-v0.0.1" 0 = "fatman-adder-v0.0.1".
Proof. reflexivity. Qed.

Example get_container_name_2 : get_container_name "fatman-adder-v0.0.1" 2 = "fatman-adder-v0.0.1-2".
Proof. reflexivity. Qed.

Example range_3 : Py.range 3 = [0; 1; 2].
Proof. reflexivity. Qed.

Example range_neg : Py.range (-2) = [].
Proof. reflexivity. Qed.

(** ** Laws of calls *)

Section Calls.

Context {W : Type}.

Lemma bind_assoc {A B C} (m : M W A) (f : A → M W B) (g : B → M W C) (w : W) :
  bind (bind m f) g w = bind m (fun a => bind (f a) g) w.
Proof.
  unfold bind; simpl.
  destruct (result (m w)) as [e|a]; simpl; [done|].
  destruct (result (f a (world_after (m w)))) as [e|b]; simpl; [done|].
  by rewrite app_assoc.
Qed.

Lemma bind_ext {A B} (m : M W A) (f g : A → M W B) (w : W) :
  (∀ a w', f a w' = g a w') → bind m f w = bind m g w.
Proof.
  intros Hfg. unfold bind; simpl.
  destruct (result (m w)) as [e|a]; [done|]. by rewrite Hfg.
Qed.

Lemma bind_ret {A B} (a : A) (k : A → M W B) (w : W) : bind (ret a) k w = k a w.
Proof. unfold bind, ret; simpl. by destruct (k a w). Qed.

Lemma bind_raised {A B} (m : M W A) (k : A → M W B) (w : W) (e : exn) :
  result (m w) = inl e →
  bind m k w = Outcome (inl e) (world_after (m w)) (trace (m w)).
Proof. intros H. unfold bind; simpl. by rewrite H. Qed.

Lemma bind_returned {A B} (m : M W A) (k : A → M W B) (w : W) (a : A) :
  result (m w) = inr a →
  bind m k w = Outcome (result (k a (world_after (m w))))
                       (world_after (k a (world_after (m w))))
                       (trace (m w) ++ trace (k a (world_after (m w)))).
Proof. intros H. unfold bind; simpl. by rewrite H. Qed.

Lemma bind_result {A B} (m : M W A) (k : A → M W B) (w : W) :
  result (bind m k w) =
  match result (m w) with
  | inl e => inl e
  | inr a => result (k a (world_after (m w)))
  end.
Proof. unfold bind; simpl. by destruct (result (m w)). Qed.

Lemma bind_trace {A B} (m : M W A) (k : A → M W B) (w : W) :
  trace (bind m k w) =
  trace (m w) ++ match result (m w) with
                 | inl _ => []
                 | inr a => trace (k a (world_after (m w)))
                 end.
Proof. unfold bind; simpl. destruct (result (m w)); simpl; by rewrite ?app_nil_r. Qed.

Lemma bind_world_after {A B} (m : M W A) (k : A → M W B) (w : W) :
  world_after (bind m k w) =
  match result (m w) with
  | inl _ => world_after (m w)
  | inr a => world_after (k a (world_after (m w)))
  end.
Proof. unfold bind; simpl. by destruct (result (m w)). Qed.

Lemma emits_ret {A} Q (a : A) : emits Q (ret (W := W) a).
Proof. intros w. constructor. Qed.

Lemma emits_raise {A} Q e : emits Q (raise (W := W) (A := A) e).
Proof. intros w. constructor. Qed.

Lemma emits_bind {A B} Q (m : M W A) (k : A → M W B) :
  emits Q m → (∀ a, emits Q (k a)) → emits Q (bind m k).
Proof.
  intros Hm Hk w. rewrite bind_trace. apply Forall_app; split; [apply Hm|].
  destruct (result (m w)); [constructor | apply Hk].
Qed.

Lemma emits_try_except {A} Q (m : M W A) (handler : exn → M W A) :
  emits Q m → (∀ e, emits Q (handler e)) → emits Q (try_except m handler).
Proof.
  intros Hm Hh w. unfold try_except; simpl.
  destruct (result (m w)) eqn:E; simpl; [|apply Hm].
  apply Forall_app; split; [apply Hm | apply Hh].
Qed.

Lemma emits_for_each {A} Q (xs : list A) (body : A → M W unit) :
  (∀ x, emits Q (body x)) → emits Q (for_each xs body).
Proof.
  intros Hb. induction xs as [|x xs IH]; simpl; [apply emits_ret|].
  apply emits_bind; auto.
Qed.

Lemma raises_ret {A} E (a : A) : raises E (ret (W := W) a).
Proof. intros w e; discriminate. Qed.

Lemma raises_raise {A} (E : exn → Prop) e : E e → raises E (raise (W := W) (A := A) e).
Proof. intros He w e' [= <-]; done. Qed.

Lemma raises_bind {A B} E (m : M W A) (k : A → M W B) :
  raises E m → (∀ a, raises E (k a)) → raises E (bind m k).
Proof.
  intros Hm Hk w e. rewrite bind_result.
  destruct (result (m w)) eqn:R; [intros [= <-]; eauto | apply Hk].
Qed.

Lemma raises_try_except {A} E (m : M W A) (handler : exn → M W A) :
  (∀ e, raises E (handler e)) → raises E (try_except m handler).
Proof.
  intros Hh w e. unfold try_except; simpl.
  destruct (result (m w)) eqn:R; simpl; [apply Hh | by rewrite R].
Qed.

Lemma raises_for_each {A} E (xs : list A) (body : A → M W unit) :
  (∀ x, raises E (body x)) → raises E (for_each xs body).
Proof.
  intros Hb. induction xs as [|x xs IH]; simpl; [apply raises_ret|].
  apply raises_bind; auto.
Qed.

End Calls.

Section Properties.

Variable P : Platform.
Variable self : DockerDaemonDeployer.

Local Abbreviation M := (M (World P)).

Lemma deploy_fatman_stages manifest config plugin_engine tag runtime_env_vars family
    containers_num (w : World P) :
  deploy_fatman P self manifest config plugin_engine tag runtime_env_vars family containers_num w
  = deploy_stages P self manifest config plugin_engine tag runtime_env_vars family containers_num w.
Proof.
  unfold deploy_fatman, deploy_stages, deploy_prelude.
  rewrite bind_assoc. apply bind_ext; intros present w1.
  rewrite bind_assoc. apply bind_ext; intros _ w2.
  apply bind_ext; intros fatman_port w3.
  unfold deploy_with_port.
  apply bind_ext; intros deployment_timestamp w4.
  apply bind_ext; intros _ w5.
  unfold compose_env_vars, reserved_env_vars.
  case_bool_decide; [done|].
  rewrite bind_assoc. apply bind_ext; intros plugin_vars_list w6.
  rewrite bind_ret. unfold launch_containers, ensure_network, descriptor, network_creation.
  symmetry. by rewrite bind_assoc.
Qed.

(** *** The command executor *)

Lemma shell_output_trace c (w : World P) : trace (shell_output P c w) = [Shell c].
Proof. unfold shell_output. by destruct (run_command P c w) as [[rc|out] w']. Qed.

Lemma shell_output_result c (w : World P) :
  result (shell_output P c w) =
  match (run_command P c w).1 with
  | inl returncode => inl (CommandError returncode)
  | inr output => inr output
  end.
Proof. unfold shell_output. by destruct (run_command P c w) as [[rc|out] w']. Qed.

Lemma shell_output_world_after c (w : World P) :
  world_after (shell_output P c w) = (run_command P c w).2.
Proof. unfold shell_output. by destruct (run_command P c w) as [[rc|out] w']. Qed.

Lemma shell_trace c (w : World P) : trace (shell P c w) = [Shell c].
Proof.
  unfold shell. rewrite bind_trace, shell_output_trace.
  by destruct (result (shell_output P c w)).
Qed.

Lemma shell_result c (w : World P) :
  result (shell P c w) =
  match (run_command P c w).1 with
  | inl returncode => inl (CommandError returncode)
  | inr _ => inr tt
  end.
Proof.
  unfold shell. rewrite bind_result, shell_output_result.
  by destruct (run_command P c w).1.
Qed.

Lemma shell_world_after c (w : World P) :
  world_after (shell P c w) = (run_command P c w).2.
Proof.
  unfold shell. rewrite bind_world_after, shell_output_world_after.
  by destruct (result (shell_output P c w)).
Qed.

Lemma emits_shell_output Q c : Q (Shell c) = true → emits Q (shell_output P c).
Proof. intros HQ w. rewrite shell_output_trace. by repeat constructor. Qed.

Lemma emits_shell Q c : Q (Shell c) = true → emits Q (shell P c).
Proof. intros HQ w. rewrite shell_trace. by repeat constructor. Qed.

Lemma raises_shell_output c : raises is_command_error (shell_output P c).
Proof.
  intros w e. rewrite shell_output_result.
  destruct (run_command P c w).1; intros [= <-]. by eexists.
Qed.

Lemma raises_shell c : raises is_command_error (shell P c).
Proof.
  intros w e. rewrite shell_result.
  destruct (run_command P c w).1; intros [= <-]. by eexists.
Qed.

(** A loop of commands stops at the first one that fails: its trace is a
    prefix of the commands, all of them when it returns. *)
Lemma for_each_shell_trace (cmd : Z → command) (xs : list Z) (w : World P) :
  ∃ k : nat,
    trace (for_each xs (fun i => shell P (cmd i)) w) = map (fun i => Shell (cmd i)) (take k xs)
    ∧ (∀ u, result (for_each xs (fun i => shell P (cmd i)) w) = inr u → k = length xs).
Proof.
  revert w. induction xs as [|x xs IH]; intros w; simpl.
  - by exists O.
  - rewrite bind_trace, bind_result, shell_trace.
    destruct (result (shell P (cmd x) w)) as [e|[]] eqn:R.
    + exists 1%nat. split; [done | discriminate].
    + destruct (IH (world_after (shell P (cmd x) w))) as (k & Htr & Hk).
      exists (S k). split; [simpl; by rewrite Htr | intros u Hu; f_equal; eauto].
Qed.

Lemma for_each_shell_returned (cmd : Z → command) (xs : list Z) (w : World P) u :
  result (for_each xs (fun i => shell P (cmd i)) w) = inr u →
  trace (for_each xs (fun i => shell P (cmd i)) w) = map (fun i => Shell (cmd i)) xs.
Proof.
  intros Hu. destruct (for_each_shell_trace cmd xs w) as (k & Htr & Hk).
  rewrite Htr, (Hk u Hu). by rewrite firstn_all.
Qed.

(** *** Existence and removal *)

Lemma container_exists_trace n (w : World P) :
  trace (_container_exists P self n w) = [Shell (existence_check self n)].
Proof.
  unfold _container_exists. rewrite bind_trace, shell_output_trace.
  by destruct (result _).
Qed.

Lemma container_exists_result n (w : World P) :
  result (_container_exists P self n w) =
  match (run_command P (existence_check self n) w).1 with
  | inl returncode => inl (CommandError returncode)
  | inr output => inr (bool_decide (n ∈ Py.splitlines output))
  end.
Proof.
  unfold _container_exists. rewrite bind_result, shell_output_result.
  unfold existence_check. by destruct (run_command P _ w).1.
Qed.

Lemma container_exists_world_after n (w : World P) :
  world_after (_container_exists P self n w) = (run_command P (existence_check self n) w).2.
Proof.
  unfold _container_exists. rewrite bind_world_after, shell_output_world_after.
  by destruct (result _).
Qed.

Lemma emits_container_exists n : emits is_listing (_container_exists P self n).
Proof. intros w. rewrite container_exists_trace. by repeat constructor. Qed.

Lemma raises_container_exists n : raises is_command_error (_container_exists P self n).
Proof.
  apply raises_bind; [apply raises_shell_output | intros; apply raises_ret].
Qed.

(** One slot of [delete_fatman]: the check, and the removal when the check
    found the container. *)
Lemma delete_container_if_exists_trace n (w : World P) :
  trace (_delete_container_if_exists P self n w) =
  Shell (existence_check self n) ::
  match result (_container_exists P self n w) with
  | inr true => [Shell (removal self n)]
  | _ => []
  end.
Proof.
  unfold _delete_container_if_exists. rewrite bind_trace, container_exists_trace.
  destruct (result (_container_exists P self n w)) as [e|[]]; simpl; [done| |done].
  by rewrite shell_trace.
Qed.

Lemma emits_delete_container_if_exists n :
  emits slot_event (_delete_container_if_exists P self n).
Proof.
  apply emits_bind; [intros w; rewrite container_exists_trace; by repeat constructor|].
  intros []; [by apply emits_shell | apply emits_ret].
Qed.

Lemma raises_delete_container_if_exists n :
  raises is_command_error (_delete_container_if_exists P self n).
Proof.
  apply raises_bind; [apply raises_container_exists|].
  intros []; [apply raises_shell | apply raises_ret].
Qed.

Lemma emits_delete_fatman name version : emits slot_event (delete_fatman P self name version).
Proof. apply emits_for_each. intros i. apply emits_delete_container_if_exists. Qed.

Lemma raises_delete_fatman name version :
  raises is_command_error (delete_fatman P self name version).
Proof. apply raises_for_each. intros i. apply raises_delete_container_if_exists. Qed.

(** *** The prelude *)

Lemma emits_get_next_fatman_port : emits is_listing (_get_next_fatman_port P self).
Proof. apply emits_bind; [by apply emits_shell_output | intros; apply emits_ret]. Qed.

Lemma raises_get_next_fatman_port : raises is_command_error (_get_next_fatman_port P self).
Proof. apply raises_bind; [apply raises_shell_output | intros; apply raises_ret]. Qed.

Lemma emits_weaken {A} (Q Q' : event → bool) (m : M A) :
  (∀ ev, Q ev = true → Q' ev = true) → emits Q m → emits Q' m.
Proof. intros HQ Hm w. eapply Forall_impl; [apply Hm | done]. Qed.

Lemma is_listing_slot_event ev : is_listing ev = true → slot_event ev = true.
Proof. unfold slot_event. by intros ->. Qed.

Lemma emits_deploy_prelude manifest : emits slot_event (deploy_prelude P self manifest).
Proof.
  apply emits_bind.
  { eapply emits_weaken; [apply is_listing_slot_event | apply emits_container_exists]. }
  intros present. apply emits_bind.
  { destruct present; [apply emits_delete_fatman | apply emits_ret]. }
  intros _. eapply emits_weaken; [apply is_listing_slot_event | apply emits_get_next_fatman_port].
Qed.

Lemma raises_deploy_prelude manifest : raises is_command_error (deploy_prelude P self manifest).
Proof.
  apply raises_bind; [apply raises_container_exists|].
  intros present. apply raises_bind.
  { destruct present; [apply raises_delete_fatman | apply raises_ret]. }
  intros _. apply raises_get_next_fatman_port.
Qed.

(** *** The network and the launches *)

Lemma ensure_network_trace (w : World P) :
  trace (ensure_network P self w) = [Shell (network_creation self)].
Proof.
  unfold ensure_network, try_except; simpl.
  destruct (result (shell P (network_creation self) w)) as [e|[]] eqn:R; simpl;
    [|apply shell_trace].
  rewrite shell_trace.
  destruct e as [| |rc|]; try done. by destruct (rc =? 1).
Qed.

Lemma raises_ensure_network : raises is_command_error (ensure_network P self).
Proof.
  intros w e. unfold ensure_network, try_except; simpl.
  destruct (result (shell P (network_creation self) w)) as [e'|[]] eqn:R; simpl.
  - apply raises_shell in R as [rc ->]. destruct (rc =? 1); [discriminate|].
    intros [= <-]. by eexists.
  - by rewrite R.
Qed.

Lemma raises_launch_containers manifest config tag base port env containers_num :
  raises is_command_error
    (launch_containers P self manifest config tag base port env containers_num).
Proof.
  apply raises_bind; [apply raises_ensure_network|].
  intros _. apply raises_for_each. intros i. apply raises_shell.
Qed.

(** The network first, then the containers in the order of their indices, up
    to the first launch that fails. *)
Lemma launch_containers_trace manifest config tag base port env containers_num (w : World P) :
  ∃ k : nat,
    trace (launch_containers P self manifest config tag base port env containers_num w)
    = Shell (network_creation self)
      :: map (fun i => Shell (run_container P self manifest config tag base port env i))
             (take k (Py.range containers_num))
    ∧ (∀ u, result (launch_containers P self manifest config tag base port env containers_num w)
            = inr u → k = length (Py.range containers_num)).
Proof.
  unfold launch_containers. rewrite bind_trace, bind_result, ensure_network_trace.
  destruct (result (ensure_network P self w)) as [e|[]].
  - exists O. split; [by rewrite take_0 | discriminate].
  - destruct (for_each_shell_trace
                (run_container P self manifest config tag base port env)
                (Py.range containers_num) (world_after (ensure_network P self w)))
      as (k & Htr & Hk).
    exists k. split; [simpl; by rewrite Htr | done].
Qed.

(** *** After the prelude *)

Section WithPort.

Variables (manifest : Manifest.t) (config : Config.t) (plugin_engine : PluginEngine.t)
  (tag : string) (runtime_env_vars : gmap string string) (family : FatmanFamilyDto.t)
  (containers_num : Z).

Local Abbreviation base :=
  (fatman_resource_name P (Manifest.name manifest) (Manifest.version manifest)).

Lemma compose_env_vars_run (common : gmap string string) (w : World P) :
  compose_env_vars P runtime_env_vars common plugin_engine w
  = if bool_decide (conflicts common runtime_env_vars ≠ ∅)
    then Outcome (inl (RuntimeError
                         "found illegal runtime env vars, which conflict with reserved names: "
                         (conflicts common runtime_env_vars))) w []
    else Outcome (inr (merge_plugin_vars (merge_env_vars runtime_env_vars common)
                         (PluginEngine.fatman_runtime_env_vars plugin_engine)))
                 w [PluginHook "fatman_runtime_env_vars"].
Proof. unfold compose_env_vars. by case_bool_decide. Qed.

Lemma deploy_with_port_run (fatman_port : Z) (w : World P) :
  deploy_with_port P self manifest config plugin_engine tag runtime_env_vars family
                   containers_num fatman_port w
  = if negb (Py.truthy_opt_str (InfrastructureConfig.hostname (infra_config self)))
    then Outcome (inl (AssertionError "hostname of a docker daemon must be set")) w []
    else
      let reserved :=
        reserved_env_vars P manifest config family containers_num (timestamp_now P w) in
      if bool_decide (conflicts reserved runtime_env_vars ≠ ∅)
      then Outcome (inl (RuntimeError
                           "found illegal runtime env vars, which conflict with reserved names: "
                           (conflicts reserved runtime_env_vars))) w []
      else
        let launch :=
          launch_containers P self manifest config tag base fatman_port
            (final_env_vars P manifest config plugin_engine runtime_env_vars family
               containers_num (timestamp_now P w)) containers_num w in
        Outcome (match result launch with
                 | inl e => inl e
                 | inr _ => inr (descriptor self manifest tag (timestamp_now P w) fatman_port)
                 end)
                (world_after launch)
                (PluginHook "fatman_runtime_env_vars" :: trace launch).
Proof.
  unfold deploy_with_port, bind, now_timestamp, assert_; simpl.
  destruct (Py.truthy_opt_str _); simpl; [|done].
  rewrite compose_env_vars_run. case_bool_decide; simpl; [done|].
  fold (final_env_vars P manifest config plugin_engine runtime_env_vars family
          containers_num (timestamp_now P w)).
  destruct (result (launch_containers _ _ _ _ _ _ _ _ _ _)); simpl; [done|].
  by rewrite app_nil_r.
Qed.

End WithPort.

End Properties.

(** ** Container names *)

Section Decimal.

Local Abbreviation digit_step := (fun (acc : Z) (c : ascii) => 10 * acc + (Z.of_N (Py.code c) - 48)).

Lemma digits_of_uint_acc (d : Decimal.uint) (acc : positive) :
  fold_left digit_step (list_ascii_of_string (NilEmpty.string_of_uint d)) (Z.pos acc)
  = Z.pos (Pos.of_uint_acc d acc).
Proof.
  revert acc. induction d; intros acc; simpl; [done|..];
    rewrite <- IHd; f_equal; unfold Py.code; simpl; lia.
Qed.

Lemma digits_of_uint (d : Decimal.uint) :
  fold_left digit_step (list_ascii_of_string (NilEmpty.string_of_uint d)) 0
  = Z.of_N (Pos.of_uint d).
Proof.
  induction d; simpl; [done | exact IHd | ..];
    simpl; rewrite <- digits_of_uint_acc; f_equal.
Qed.

(** Reading the rendering of a natural number gives the number back: the
    rendering is its decimal one. *)
Lemma int_of_digits_str_of_int (n : Z) : 0 ≤ n → Py.int_of_digits (Py.str_of_int n) = n.
Proof.
  intros Hn. unfold Py.int_of_digits, Py.str_of_int.
  destruct n as [|p|p]; [done | | lia].
  simpl. unfold NilZero.string_of_uint.
  pose proof (DecimalPos.Unsigned.to_uint_nonnil p) as Hnil.
  pose proof (DecimalPos.Unsigned.of_to p) as Hp.
  destruct (Pos.to_uint p) eqn:E; [done|..];
    rewrite digits_of_uint, Hp; done.
Qed.

Lemma str_of_int_negative (n : Z) :
  n < 0 → Py.str_of_int n = String "-" (Py.str_of_int (- n)).
Proof.
  intros Hn. destruct n as [|p|p]; [lia | lia |].
  unfold Py.str_of_int. simpl. unfold NilZero.string_of_uint.
  pose proof (DecimalPos.Unsigned.to_uint_nonnil p).
  by destruct (Pos.to_uint p).
Qed.

End Decimal.

(** C9. For every base and every index, [get_container_name base index] is
    [base] when the index is 0 and otherwise [base], a dash and the decimal
    rendering of the index: the digits read back as the index when it is
    positive, and a minus sign precedes the rendering of its opposite when it
    is negative.  The function is total and has no failure mode, being a
    function into the strings.  In particular the name at index 0 is [base],
    the name at index 2 is [base] followed by [-2]. *)
Theorem get_container_name_spec (base : string) (index : Z) :
  get_container_name base index
  = (if bool_decide (index = 0) then base else base +:+ "-" +:+ Py.str_of_int index)
  ∧ (if bool_decide (0 ≤ index)
     then Py.int_of_digits (Py.str_of_int index) = index
     else Py.str_of_int index = String "-" (Py.str_of_int (- index)))
  ∧ get_container_name base 0 = base
  ∧ get_container_name base 2 = base +:+ "-2".
Proof.
  split; [|split; [|split]].
  - unfold get_container_name. case_bool_decide as H.
    + by rewrite H.
    + by apply Z.eqb_neq in H as ->.
  - case_bool_decide as H.
    + by apply int_of_digits_str_of_int.
    + apply str_of_int_negative. lia.
  - reflexivity.
  - reflexivity.
Qed.

(** ** Port allocation *)

Lemma first_unoccupied_seq (occupied : gset Z) (len start : nat) :
  let f := fun k : nat => 7000 + 10 * Z.of_nat k in
  let r := first_unoccupied (map f (seq start len)) occupied in
  (∃ k : nat, (start ≤ k < start + len)%nat ∧ r = f k ∧ (f k ∉ occupied)
              ∧ (∀ j : nat, (start ≤ j < k)%nat → f j ∈ occupied))
  ∨ (r = 8000 ∧ ∀ j : nat, (start ≤ j < start + len)%nat → f j ∈ occupied).
Proof.
  intros f. induction len as [|len IH] in start |- *; simpl.
  - right. split; [done | intros j ?; lia].
  - case_bool_decide as Hfree.
    + left. exists start. repeat split; [lia.. | done | intros j ?; lia].
    + destruct (IH (S start)) as [(k & Hk & -> & Hfreek & Hbelow) | [-> Hall]].
      * left. exists k. repeat split; [lia.. | done |].
        intros j Hj. destruct (decide (j = start)) as [->|]; [done | apply Hbelow; lia].
      * right. split; [done|].
        intros j Hj. destruct (decide (j = start)) as [->|]; [done | apply Hall; lia].
Qed.

Lemma candidate_index (port : Z) :
  candidate port ↔ ∃ k : nat, (k < 100)%nat ∧ port = 7000 + 10 * Z.of_nat k.
Proof.
  unfold candidate. split.
  - intros [Hrange Hmod]. exists (Z.to_nat ((port - 7000) / 10)).
    pose proof (Z.div_mod (port - 7000) 10 ltac:(lia)) as Hdm.
    rewrite Hmod in Hdm. split; [|lia].
    apply Nat2Z.inj_lt. rewrite Z2Nat.id by lia. lia.
  - intros (k & Hk & ->). split; [lia|].
    replace (7000 + 10 * Z.of_nat k - 7000) with (Z.of_nat k * 10) by lia.
    apply Z.mod_mul. lia.
Qed.

(** The scan of lines 147-150 taken alone: for every set it is given, the
    port picked is the smallest of the candidates 7000, 7010, ..., 7990 that
    is not in the set, and 8000 when every candidate is in it;
    [_get_next_fatman_port] applies it to the set it reads from the
    listing.  With 7000, 7010 and 7020 in the set the port is 7030. *)
Theorem next_port_first_free (occupied : gset Z) :
  ((candidate (next_port occupied) ∧ (next_port occupied ∉ occupied)
    ∧ ∀ q, candidate q → q < next_port occupied → q ∈ occupied)
   ∨ (next_port occupied = 8000 ∧ ∀ q, candidate q → q ∈ occupied))
  ∧ next_port {[7000; 7010; 7020]} = 7030
  ∧ ∀ (P : Platform) (self : DockerDaemonDeployer) (w : World P),
      result (_get_next_fatman_port P self w)
      = match (run_command P (port_listing self) w).1 with
        | inl returncode => inl (CommandError returncode)
        | inr output => inr (next_port (occupied_ports output))
        end.
Proof.
  split; [|split].
  - unfold next_port.
    change (Py.range3 7000 8000 10)
      with (map (fun k : nat => 7000 + 10 * Z.of_nat k) (seq 0 100)).
    destruct (first_unoccupied_seq occupied 100 0)
      as [(k & Hk & Hr & Hfree & Hbelow) | [Hr Hall]]; simpl in *.
    + left. rewrite Hr. split; [|split; [done|]].
      * apply candidate_index. exists k. split; [lia | done].
      * intros q [j [Hj ->]]%candidate_index Hlt. apply Hbelow. lia.
    + right. split; [done|].
      intros q [j [Hj ->]]%candidate_index. apply Hall. lia.
  - by vm_compute.
  - intros P self w. unfold _get_next_fatman_port.
    rewrite bind_result, shell_output_result. unfold port_listing.
    by destruct (run_command P _ w).1.
Qed.

(** Lines of the listing that repeat the format add no port. *)
Lemma format_lines_add_no_port (lines : list string) (occupied : gset Z) :
  Forall (fun line => line = Ports.format_line) lines →
  fold_left (fun occupied line =>
    match Py.fullmatch port_line_pattern (Py.strip line) with
    | Some [_; port] => {[ Py.int_of_digits port ]} ∪ occupied
    | _ => occupied
    end) lines occupied = occupied.
Proof.
  intros Hlines. revert occupied.
  induction Hlines as [|line lines -> _ IH]; intros occupied; [done|].
  cbn [fold_left].
  replace (Py.fullmatch port_line_pattern (Py.strip Ports.format_line)) with (@None (list string))
    by (by vm_compute).
  apply IH.
Qed.

(** C5. [_get_next_fatman_port] does not get the occupied ports it is meant
    to scan: the format of its listing names no field, so that whenever the
    daemon answers with the format itself, one line per container, no port
    is read and the port returned is 7000, occupied or not.  On a host
    whose running containers publish 7000, 7010 and 7020 the listing is the
    format three times and the call returns 7000, which is published, where
    the first candidate free on that host is 7030. *)
Theorem next_fatman_port_misses_occupied :
  (∀ (P : Platform) (self : DockerDaemonDeployer) (w : World P) (output : string),
     (run_command P (port_listing self) w).1 = inr output →
     (∀ line, line ∈ Py.splitlines output → line = Ports.format_line) →
     occupied_ports output = ∅
     ∧ result (_get_next_fatman_port P self w) = inr 7000)
  ∧ (∃ docker_host all name_filter,
       port_listing Docker.deployer = DockerPs docker_host all name_filter Ports.format_line)
  ∧ (Docker.exec (port_listing Docker.deployer) Ports.host_with_ports).1
    = inr (String.concat "" (map (fun _ => Ports.format_line +:+ Docker.LF)
                                 (Docker.containers Ports.host_with_ports)))
  ∧ Ports.published_ports Ports.host_with_ports = {[7000; 7010; 7020]}
  ∧ result (_get_next_fatman_port Docker.platform Docker.deployer Ports.host_with_ports)
    = inr 7000
  ∧ 7000 ∈ Ports.published_ports Ports.host_with_ports
  ∧ next_port (Ports.published_ports Ports.host_with_ports) = 7030.
Proof.
  split.
  - intros P self w output Hout Hlines.
    assert (Hempty : occupied_ports output = ∅).
    { unfold occupied_ports. apply format_lines_add_no_port.
      apply Forall_forall. exact Hlines. }
    split; [exact Hempty|].
    unfold _get_next_fatman_port. rewrite bind_result, shell_output_result.
    unfold port_listing in Hout. rewrite Hout. simpl. rewrite Hempty. by vm_compute.
  - split; [by eexists _, _, _|].
    split; [by vm_compute|]. split; [by vm_compute|]. split; [by vm_compute|].
    split; [|by vm_compute].
    replace (Ports.published_ports Ports.host_with_ports)
      with ({[7000; 7010; 7020]} : gset Z) by (by vm_compute).
    apply elem_of_union. left. apply elem_of_union. left. by apply elem_of_singleton.
Qed.

(** ** Reading traces *)

Lemma launched_app (tr1 tr2 : list event) : launched (tr1 ++ tr2) = launched tr1 ++ launched tr2.
Proof. apply omap_app. Qed.

Lemma hook_invocations_app (tr1 tr2 : list event) :
  hook_invocations (tr1 ++ tr2) = (hook_invocations tr1 + hook_invocations tr2)%nat.
Proof. unfold hook_invocations. by rewrite filter_app, length_app. Qed.

Lemma launched_cons (ev : event) (tr : list event) :
  launched (ev :: tr)
  = match ev with
    | Shell (DockerRun _ _ o) => o :: launched tr
    | _ => launched tr
    end.
Proof. by destruct ev as [[]|]. Qed.

Lemma launched_slot_events (tr : list event) :
  Forall (fun ev => slot_event ev = true) tr → launched tr = [].
Proof.
  induction 1 as [|ev tr Hev _ IH]; [done|].
  rewrite launched_cons, IH. by destruct ev as [[]|].
Qed.

Lemma hook_invocations_slot_events (tr : list event) :
  Forall (fun ev => slot_event ev = true) tr → hook_invocations tr = O.
Proof.
  induction 1 as [|ev tr Hev _ IH]; [done|].
  unfold hook_invocations in *. rewrite filter_cons.
  destruct ev as [[]|]; simpl in *; done.
Qed.

Lemma launched_run_containers P self manifest config tag base port env (indices : list Z) :
  launched (map (fun i => Shell (run_container P self manifest config tag base port env i)) indices)
  = map (container_options P manifest config tag base port env) indices.
Proof.
  induction indices as [|i indices IH]; [done|].
  rewrite !map_cons, launched_cons. unfold run_container at 1. by rewrite IH.
Qed.

Lemma hook_invocations_run_containers P self manifest config tag base port env (indices : list Z) :
  hook_invocations
    (map (fun i => Shell (run_container P self manifest config tag base port env i)) indices) = O.
Proof. induction indices as [|i indices IH]; [done|]. unfold hook_invocations in *. by rewrite map_cons, filter_cons. Qed.

(** [range(n)] is 0, 1, ..., n - 1. *)
Lemma range_indices (n : Z) : Py.range n = map Z.of_nat (seq 0 (Z.to_nat n)).
Proof.
  unfold Py.range, Py.range3.
  replace ((n - 0 + 1 - 1) / 1) with n by (rewrite Z.div_1_r; lia).
  apply map_ext. intros k. lia.
Qed.

(** ** Merging what the plugins contribute *)

Lemma merge_env_vars_lookup (env1 env2 : gmap string string) (key : string) :
  merge_env_vars env1 env2 !! key
  = match env2 !! key with
    | Some value => Some value
    | None => env1 !! key
    end.
Proof.
  unfold merge_env_vars. destruct (env2 !! key) as [value|] eqn:E.
  - by apply lookup_union_Some_l.
  - by rewrite lookup_union_r.
Qed.

Lemma merge_plugin_vars_lookup (env : gmap string string)
    (plugin_vars_list : list (option (gmap string string))) (key : string) :
  merge_plugin_vars env plugin_vars_list !! key
  = match last_binding key plugin_vars_list with
    | Some value => Some value
    | None => env !! key
    end.
Proof.
  revert env. induction plugin_vars_list as [|plugin_vars later IH]; intros env; [done|].
  unfold merge_plugin_vars in *. simpl. rewrite IH.
  destruct (last_binding key later) as [value|]; [done|].
  destruct plugin_vars as [d|]; simpl; [|done].
  case_bool_decide as Hd.
  - apply merge_env_vars_lookup.
  - rewrite Hd. by rewrite lookup_empty.
Qed.

Lemma last_binding_unbound (key : string) (plugin_vars_list : list (option (gmap string string))) :
  (∀ plugin_vars, Some plugin_vars ∈ plugin_vars_list → plugin_vars !! key = None) →
  last_binding key plugin_vars_list = None.
Proof.
  induction plugin_vars_list as [|plugin_vars later IH]; intros Hun; [done|].
  simpl. rewrite IH by (intros d Hd; apply Hun; by right).
  destruct plugin_vars as [d|]; simpl; [|done]. apply Hun. by left.
Qed.

Lemma merge_plugin_vars_dom (env : gmap string string)
    (plugin_vars_list : list (option (gmap string string))) (key : string) :
  is_Some (env !! key) → is_Some (merge_plugin_vars env plugin_vars_list !! key).
Proof.
  intros Hkey. rewrite merge_plugin_vars_lookup.
  by destruct (last_binding key plugin_vars_list).
Qed.

Lemma append_not_id (s : string) (c : ascii) (suffix : string) : s +:+ String c suffix ≠ s.
Proof.
  assert (Hlen : ∀ s1 s2, String.length (s1 +:+ s2) = (String.length s1 + String.length s2)%nat).
  { intros s1 s2. induction s1 as [|a s1 IH]; simpl; [done | by rewrite IH]. }
  intros Heq. apply (f_equal String.length) in Heq.
  rewrite Hlen in Heq. simpl in Heq. lia.
Qed.

(** ** The deployment *)

Section Deployment.

Variables (P : Platform) (self : DockerDaemonDeployer).
Variables (manifest : Manifest.t) (config : Config.t) (plugin_engine : PluginEngine.t)
  (tag : string) (runtime_env_vars : gmap string string) (family : FatmanFamilyDto.t)
  (containers_num : Z).

Local Abbreviation base :=
  (fatman_resource_name P (Manifest.name manifest) (Manifest.version manifest)).
Local Abbreviation deploy :=
  (deploy_fatman P self manifest config plugin_engine tag runtime_env_vars family containers_num).
Local Abbreviation prelude := (deploy_prelude P self manifest).
Local Abbreviation with_port :=
  (deploy_with_port P self manifest config plugin_engine tag runtime_env_vars family containers_num).
Local Abbreviation reserved :=
  (reserved_env_vars P manifest config family containers_num).
Local Abbreviation hostname_set :=
  (Py.truthy_opt_str (InfrastructureConfig.hostname (infra_config self))).

Lemma deploy_fatman_run (w : World P) :
  deploy w
  = match result (prelude w) with
    | inl e => Outcome (inl e) (world_after (prelude w)) (trace (prelude w))
    | inr fatman_port =>
        let o := with_port fatman_port (world_after (prelude w)) in
        Outcome (result o) (world_after o) (trace (prelude w) ++ trace o)
    end.
Proof. rewrite deploy_fatman_stages. unfold deploy_stages, bind. by destruct (result (prelude w)). Qed.

Lemma deploy_prelude_first (w : World P) :
  ∃ rest, trace (prelude w) = Shell (existence_check self (get_container_name base 0)) :: rest.
Proof.
  unfold deploy_prelude. rewrite bind_trace. unfold fatman_exists.
  rewrite container_exists_trace. simpl. by eexists.
Qed.

(** When the primary container is absent the prelude is two listings. *)
Lemma deploy_prelude_absent (w : World P) :
  result (fatman_exists P self (Manifest.name manifest) (Manifest.version manifest) w) = inr false →
  trace (prelude w) = [Shell (existence_check self (get_container_name base 0));
                       Shell (port_listing self)]
  ∧ world_after (prelude w)
    = (run_command P (port_listing self)
         (run_command P (existence_check self (get_container_name base 0)) w).2).2.
Proof.
  intros Habsent. unfold deploy_prelude.
  rewrite bind_trace, bind_world_after, Habsent.
  rewrite bind_trace, bind_world_after. simpl.
  unfold fatman_exists. rewrite container_exists_trace, container_exists_world_after.
  unfold _get_next_fatman_port.
  rewrite bind_trace, bind_world_after, shell_output_trace, shell_output_world_after.
  unfold port_listing. by destruct (result (shell_output P _ _)).
Qed.

(** Every deployment is its prelude alone, or its prelude, the hook, the
    network and the launches of the first [k] containers, all of them when it
    returns. *)
Lemma deploy_fatman_trace (w : World P) :
  let ts := timestamp_now P (world_after (prelude w)) in
  (trace (deploy w) = trace (prelude w)
   ∧ world_after (deploy w) = world_after (prelude w)
   ∧ (∀ dto, result (deploy w) ≠ inr dto)
   ∧ (∀ fatman_port, result (prelude w) = inr fatman_port → hostname_set = true →
        conflicts (reserved ts) runtime_env_vars ≠ ∅)
   ∧ (∀ e, result (deploy w) = inl e →
        is_command_error e
        ∨ (e = AssertionError "hostname of a docker daemon must be set" ∧ hostname_set = false)
        ∨ (e = RuntimeError "found illegal runtime env vars, which conflict with reserved names: "
                            (conflicts (reserved ts) runtime_env_vars)
           ∧ conflicts (reserved ts) runtime_env_vars ≠ ∅)))
  ∨ (∃ (fatman_port : Z) (k : nat),
       result (prelude w) = inr fatman_port
       ∧ hostname_set = true
       ∧ conflicts (reserved ts) runtime_env_vars = ∅
       ∧ trace (deploy w)
         = trace (prelude w) ++
           PluginHook "fatman_runtime_env_vars" :: Shell (network_creation self) ::
           map (fun i => Shell (run_container P self manifest config tag base fatman_port
                                  (final_env_vars P manifest config plugin_engine
                                     runtime_env_vars family containers_num ts) i))
               (take k (Py.range containers_num))
       ∧ (∀ dto, result (deploy w) = inr dto →
            k = length (Py.range containers_num)
            ∧ dto = descriptor self manifest tag ts fatman_port)
       ∧ (∀ e, result (deploy w) = inl e → is_command_error e)).
Proof.
  intros ts. rewrite deploy_fatman_run.
  destruct (result (prelude w)) as [e|fatman_port] eqn:Hpre.
  { left. simpl. split; [done|]. split; [done|]. split; [done|]. split; [done|].
    intros e' [= <-]. left. by apply raises_deploy_prelude in Hpre. }
  cbv zeta. rewrite deploy_with_port_run. fold ts.
  destruct hostname_set eqn:Hhost; simpl.
  2:{ left. rewrite app_nil_r. split; [done|]. split; [done|]. split; [done|].
      split; [done|]. intros e [= <-]. right; left. done. }
  case_bool_decide as Hconf; simpl.
  { left. rewrite app_nil_r. split; [done|]. split; [done|]. split; [done|].
    split; [done|]. intros e [= <-]. right; right. done. }
  right.
  destruct (launch_containers_trace P self manifest config tag base fatman_port
              (final_env_vars P manifest config plugin_engine runtime_env_vars family
                 containers_num ts)
              containers_num (world_after (prelude w))) as (k & Htr & Hk).
  exists fatman_port, k. split; [done|]. split; [done|]. split; [done|].
  split; [by rewrite Htr|]. split.
  - intros dto. destruct (result (launch_containers _ _ _ _ _ _ _ _ _ _)) as [e|u] eqn:R;
      [discriminate|]. intros [= <-]. split; [by eapply Hk | done].
  - intros e. destruct (result (launch_containers _ _ _ _ _ _ _ _ _ _)) as [e'|u] eqn:R;
      [|discriminate]. intros [= <-]. by apply raises_launch_containers in R.
Qed.

(** What the prelude emits holds of a deployment that stops with it. *)
Lemma prelude_slot_events (w : World P) :
  Forall (fun ev => slot_event ev = true) (trace (prelude w)).
Proof. apply emits_deploy_prelude. Qed.

(** The containers launched by a deployment all get the final environment
    of the call. *)
Lemma launched_env_vars (w : World P) (r : run_options) :
  r ∈ launched (trace (deploy w)) →
  env_vars r = final_env_vars P manifest config plugin_engine runtime_env_vars family
                 containers_num (timestamp_now P (world_after (prelude w)))
  ∧ conflicts (reserved (timestamp_now P (world_after (prelude w)))) runtime_env_vars = ∅.
Proof.
  destruct (deploy_fatman_trace w) as [(Htr & _) | (port & k & _ & _ & Hconf & Htr & _)];
    rewrite Htr.
  - rewrite launched_slot_events by apply prelude_slot_events. by intros ?%elem_of_nil.
  - rewrite launched_app, launched_slot_events by apply prelude_slot_events.
    rewrite app_nil_l, !launched_cons, launched_run_containers.
    intros (i & -> & _)%list_elem_of_fmap. done.
Qed.

(** C2 (as amended). For every deploy call whose infrastructure config has
    an empty or missing hostname, the call fails: with the precondition
    error once the prelude has run, or with the command error of the
    prelude.  The prelude comes first, so the existence check is always
    issued, and with it the removals of an instance that exists and the port
    listing; nothing else is: no plugin hook, no network creation, no
    container launch. *)
Theorem deploy_without_hostname (w : World P) :
  hostname_set = false →
  result (deploy w)
  = match result (prelude w) with
    | inl e => inl e
    | inr _ => inl (AssertionError "hostname of a docker daemon must be set")
    end
  ∧ (∀ e, result (prelude w) = inl e → is_command_error e)
  ∧ trace (deploy w) = trace (prelude w)
  ∧ world_after (deploy w) = world_after (prelude w)
  ∧ (∃ rest, trace (deploy w)
             = Shell (existence_check self (get_container_name base 0)) :: rest)
  ∧ Forall (fun ev => is_listing ev || is_removal ev = true) (trace (deploy w))
  ∧ launched (trace (deploy w)) = []
  ∧ hook_invocations (trace (deploy w)) = O.
Proof.
  intros Hhost.
  assert (Hrun : deploy w
                 = Outcome (match result (prelude w) with
                            | inl e => inl e
                            | inr _ => inl (AssertionError "hostname of a docker daemon must be set")
                            end) (world_after (prelude w)) (trace (prelude w))).
  { rewrite deploy_fatman_run.
    destruct (result (prelude w)) as [e|port]; [done|].
    cbv zeta. rewrite deploy_with_port_run, Hhost. simpl. by rewrite app_nil_r. }
  rewrite Hrun; simpl.
  split; [done|]. split; [apply raises_deploy_prelude|].
  split; [done|]. split; [done|]. split; [apply deploy_prelude_first|].
  split; [apply prelude_slot_events|].
  split; [apply launched_slot_events | apply hook_invocations_slot_events];
    apply prelude_slot_events.
Qed.

(** C3 (as amended). For every deploy call that fails with the Conflict
    error, no container is launched, no network is created and no plugin
    hook is invoked; the commands issued are those of the prelude: the
    existence check, the port listing and, when the primary container
    existed, the checks and forced removals of [delete_fatman].  When the
    primary container did not exist the call issued the two listings only,
    and on a host that listings leave as it is, the state after the call is
    the state before it. *)
Theorem deploy_conflict_effects (w : World P) (msg : string) (cs : gset string) :
  result (deploy w) = inl (RuntimeError msg cs) →
  launched (trace (deploy w)) = []
  ∧ hook_invocations (trace (deploy w)) = O
  ∧ Forall (fun ev => is_listing ev || is_removal ev = true) (trace (deploy w))
  ∧ trace (deploy w) = trace (prelude w)
  ∧ world_after (deploy w) = world_after (prelude w)
  ∧ (result (fatman_exists P self (Manifest.name manifest) (Manifest.version manifest) w)
     = inr false →
     trace (deploy w) = [Shell (existence_check self (get_container_name base 0));
                         Shell (port_listing self)]
     ∧ ((∀ c w', is_listing (Shell c) = true → (run_command P c w').2 = w') →
        world_after (deploy w) = w)).
Proof.
  intros Hres.
  destruct (deploy_fatman_trace w) as [(Htr & Hworld & _) | (port & k & _ & _ & _ & _ & _ & Herr)].
  2:{ apply Herr in Hres as [rc [=]]. }
  rewrite Htr, Hworld.
  split; [apply launched_slot_events, prelude_slot_events|].
  split; [apply hook_invocations_slot_events, prelude_slot_events|].
  split; [apply prelude_slot_events|]. split; [done|]. split; [done|].
  intros Habsent. destruct (deploy_prelude_absent w Habsent) as [Htr' Hworld'].
  split; [done|]. intros Hro. rewrite Hworld', !Hro; done.
Qed.

(** C4. The conflict check fails with the Conflict error exactly when a key
    of the runtime variables is a key of the reserved ones, and the error
    then carries every such key and no other; a check that fails has issued
    nothing, and a deployment that fails with the Conflict error, which
    names the keys colliding with the variables reserved for that call, has
    launched no container. *)
Theorem conflict_check (common : gmap string string) (w : World P) :
  ((∃ msg cs, result (compose_env_vars P runtime_env_vars common plugin_engine w)
              = inl (RuntimeError msg cs))
   ↔ dom runtime_env_vars ∩ dom common ≠ ∅)
  ∧ (∀ e, result (compose_env_vars P runtime_env_vars common plugin_engine w) = inl e →
       (∃ msg cs, e = RuntimeError msg cs
                  ∧ ∀ key, key ∈ cs ↔ key ∈ dom runtime_env_vars ∧ key ∈ dom common)
       ∧ trace (compose_env_vars P runtime_env_vars common plugin_engine w) = []
       ∧ world_after (compose_env_vars P runtime_env_vars common plugin_engine w) = w)
  ∧ (∀ msg cs, result (deploy w) = inl (RuntimeError msg cs) →
       launched (trace (deploy w)) = []
       ∧ cs ≠ ∅
       ∧ ∃ ts, ∀ key, key ∈ cs ↔ key ∈ dom runtime_env_vars ∧ key ∈ dom (reserved ts)).
Proof.
  rewrite compose_env_vars_run. unfold conflicts.
  split; [|split].
  - case_bool_decide as Hc; simpl.
    + split; [intros _; by rewrite (comm_L (∩)) | intros _; by do 2 eexists].
    + split; [by intros (msg & cs & [=]) | by rewrite (comm_L (∩))].
  - intros e. case_bool_decide as Hc; simpl; [|discriminate].
    intros [= <-]. split; [|done]. do 2 eexists. split; [done|].
    intros key. rewrite elem_of_intersection. tauto.
  - intros msg cs Hres.
    split; [by eapply deploy_conflict_effects|].
    destruct (deploy_fatman_trace w) as [(_ & _ & _ & _ & Herr) | (port & k & _ & _ & _ & _ & _ & Herr)].
    + apply Herr in Hres as [[rc [=]] | [[[=] _] | [[= -> ->] Hne]]].
      split; [done|]. exists (timestamp_now P (world_after (prelude w))).
      intros key. unfold conflicts. rewrite elem_of_intersection. tauto.
    + apply Herr in Hres as [rc [=]].
Qed.

(** C6. For every deploy call that returns, with [containers_num = N], the
    call issued exactly [N] launch commands, the one at position [index]
    for the container of that index: named [get_container_name base index],
    detached, on the network [racetrack_default], labelled with the name and
    the version of the workload, pulled always, with the image of that
    index; the container at index 0 maps the allocated port to the internal
    one, the others map no port. *)
Theorem deploy_launches_each_container (w : World P) (dto : FatmanDto.t) :
  result (deploy w) = inr dto →
  ∃ fatman_port : Z,
    result (prelude w) = inr fatman_port
    ∧ FatmanDto.internal_name dto
      = default "" (InfrastructureConfig.hostname (infra_config self))
        +:+ ":" +:+ Py.str_of_int fatman_port
    ∧ length (launched (trace (deploy w))) = Z.to_nat containers_num
    ∧ length (filter (fun ev => is_launch ev = true) (trace (deploy w))) = Z.to_nat containers_num
    ∧ ∀ (index : nat) (r : run_options),
        launched (trace (deploy w)) !! index = Some r →
        (index < Z.to_nat containers_num)%nat
        ∧ container_name r = get_container_name base (Z.of_nat index)
        ∧ detached r = true
        ∧ network r = "racetrack_default"
        ∧ labels r = [("fatman-name", Manifest.name manifest);
                      ("fatman-version", Manifest.version manifest)]
        ∧ pull r = "always"
        ∧ image_name r = get_fatman_image P (Config.docker_registry config)
                           (Config.docker_registry_namespace config)
                           (Manifest.name manifest) tag (Z.of_nat index)
        ∧ ports_mapping r = (if bool_decide (index = O)
                             then Some (fatman_port, FATMAN_INTERNAL_PORT) else None).
Proof.
  intros Hres.
  destruct (deploy_fatman_trace w) as [(_ & _ & Hno & _) | (port & k & Hpre & _ & _ & Htr & Hok & _)].
  { by destruct (Hno dto). }
  destruct (Hok dto Hres) as [-> ->].
  rewrite firstn_all in Htr.
  exists port. split; [done|]. split; [done|].
  assert (Hl : launched (trace (deploy w))
               = map (container_options P manifest config tag base port
                        (final_env_vars P manifest config plugin_engine runtime_env_vars
                           family containers_num (timestamp_now P (world_after (prelude w)))))
                     (Py.range containers_num)).
  { rewrite Htr, launched_app, launched_slot_events by apply prelude_slot_events.
    by rewrite app_nil_l, !launched_cons, launched_run_containers. }
  split; [by rewrite Hl, length_map, range_indices, length_map, length_seq|].
  split.
  { rewrite Htr, filter_app, length_app.
    assert (Hz : ∀ tr, Forall (fun ev => slot_event ev = true) tr →
                       filter (fun ev => is_launch ev = true) tr = []).
    { induction 1 as [|ev tr Hev _ IH]; [done|].
      rewrite filter_cons, IH. by destruct ev as [[]|]. }
    rewrite Hz by apply prelude_slot_events. simpl.
    rewrite !filter_cons. simpl.
    assert (Hall : ∀ indices f,
      filter (fun ev => is_launch ev = true)
        (map (fun i : Z => Shell (run_container P self manifest config tag base port f i)) indices)
      = map (fun i : Z => Shell (run_container P self manifest config tag base port f i)) indices).
    { intros indices f. induction indices as [|i indices IH]; [done|].
      rewrite map_cons, filter_cons. simpl. by rewrite IH. }
    by rewrite Hall, length_map, range_indices, length_map, length_seq. }
  intros index r. rewrite Hl, range_indices, list_lookup_fmap, list_lookup_fmap.
  destruct (seq 0 (Z.to_nat containers_num) !! index) as [j|] eqn:Hj; [|discriminate].
  apply lookup_seq in Hj as [-> Hlt]. simpl. intros [= <-].
  split; [done|]. unfold container_options; simpl.
  repeat split. destruct index; simpl; done.
Qed.

(** C7 (as amended). In every deploy call the plugin hook is invoked at most
    once, and exactly once precisely in the calls that reach the
    composition: the prelude has returned, the hostname is set and no
    runtime key collides with a reserved one; every call that returns is
    one of them, and a call that fails earlier does not invoke the hook.
    The mappings the hook returns are merged in the order of the sequence,
    the empty ones skipped: a key is bound in the final environment to the
    value the last mapping binding it gives, and to its value in the merge
    of the runtime and reserved variables when no mapping binds it.  No
    mapping makes the composition fail: it fails on a collision of the
    runtime and reserved keys only. *)
Theorem plugin_vars_later_wins (w : World P) :
  let ts := timestamp_now P (world_after (prelude w)) in
  (hook_invocations (trace (deploy w)) ≤ 1)%nat
  ∧ (hook_invocations (trace (deploy w)) = 1%nat
     ↔ (∃ fatman_port, result (prelude w) = inr fatman_port)
       ∧ hostname_set = true
       ∧ conflicts (reserved ts) runtime_env_vars = ∅)
  ∧ (∀ dto, result (deploy w) = inr dto → hook_invocations (trace (deploy w)) = 1%nat)
  ∧ (∀ r, r ∈ launched (trace (deploy w)) →
       env_vars r
       = merge_plugin_vars (merge_env_vars runtime_env_vars (reserved ts))
           (PluginEngine.fatman_runtime_env_vars plugin_engine))
  ∧ (∀ (env : gmap string string) (plugin_vars_list : list (option (gmap string string)))
       (key : string),
       merge_plugin_vars env plugin_vars_list !! key
       = match last_binding key plugin_vars_list with
         | Some value => Some value
         | None => env !! key
         end)
  ∧ (∀ (common : gmap string string) (w' : World P),
       conflicts common runtime_env_vars = ∅ →
       compose_env_vars P runtime_env_vars common plugin_engine w'
       = Outcome (inr (merge_plugin_vars (merge_env_vars runtime_env_vars common)
                         (PluginEngine.fatman_runtime_env_vars plugin_engine)))
                 w' [PluginHook "fatman_runtime_env_vars"]).
Proof.
  intros ts.
  assert (Hcount : (hook_invocations (trace (deploy w)) = O
                    ∧ ∀ fatman_port, result (prelude w) = inr fatman_port →
                        hostname_set = true → conflicts (reserved ts) runtime_env_vars ≠ ∅)
                   ∨ (hook_invocations (trace (deploy w)) = 1%nat
                      ∧ (∃ fatman_port, result (prelude w) = inr fatman_port)
                      ∧ hostname_set = true
                      ∧ conflicts (reserved ts) runtime_env_vars = ∅)).
  { destruct (deploy_fatman_trace w)
      as [(Htr & _ & _ & Hstop & _) | (port & k & Hpre & Hhost & Hconf & Htr & _)]; rewrite Htr.
    - left. split; [apply hook_invocations_slot_events, prelude_slot_events | done].
    - right. rewrite hook_invocations_app.
      rewrite hook_invocations_slot_events by apply prelude_slot_events.
      change (PluginHook ?h :: Shell ?c :: ?l) with ([PluginHook h; Shell c] ++ l).
      rewrite hook_invocations_app, hook_invocations_run_containers.
      split; [done|]. split; [by eexists | done]. }
  split; [|split; [|split; [|split; [|split]]]].
  - destruct Hcount as [[-> _] | [-> _]]; lia.
  - destruct Hcount as [[Hz Hstop] | [Ho Hreach]].
    + rewrite Hz. split; [discriminate|]. intros ([port Hpre] & Hhost & Hconf).
      by destruct (Hstop port Hpre Hhost).
    + by rewrite Ho.
  - intros dto Hres.
    destruct (deploy_fatman_trace w) as [(_ & _ & Hno & _) | _]; [by destruct (Hno dto)|].
    destruct Hcount as [[Hz Hstop] | [Ho _]]; [|done].
    destruct (deploy_fatman_trace w)
      as [(_ & _ & Hno & _) | (port & k & Hpre & Hhost & Hconf & _)]; [by destruct (Hno dto)|].
    by destruct (Hstop port Hpre Hhost).
  - intros r Hr. by apply launched_env_vars in Hr as [-> _].
  - apply merge_plugin_vars_lookup.
  - intros common w' Hconf. rewrite compose_env_vars_run.
    case_bool_decide; [done | done].
Qed.

(** C1 (as amended). For every deploy call with more than one container, the
    reserved variables hold the secondary-hostname variable
    [FATMAN_USER_MODULE_HOSTNAME], and its value is the name of the
    container at index 1, [get_container_name base 1], that is [base]
    followed by [-1], which is not the name of the primary container; every
    container the call launches gets the variable with that value, unless a
    plugin binds the key. *)
Theorem secondary_hostname_is_index_1 (w : World P) :
  1 < containers_num →
  (∀ ts, reserved ts !! "FATMAN_USER_MODULE_HOSTNAME" = Some (get_container_name base 1))
  ∧ get_container_name base 1 = base +:+ "-1"
  ∧ get_container_name base 1 ≠ get_container_name base 0
  ∧ (∀ r, r ∈ launched (trace (deploy w)) →
       (∀ plugin_vars, Some plugin_vars ∈ PluginEngine.fatman_runtime_env_vars plugin_engine →
                       plugin_vars !! "FATMAN_USER_MODULE_HOSTNAME" = None) →
       env_vars r !! "FATMAN_USER_MODULE_HOSTNAME" = Some (get_container_name base 1)).
Proof.
  intros Hnum.
  assert (Hreserved : ∀ ts, reserved ts !! "FATMAN_USER_MODULE_HOSTNAME"
                            = Some (get_container_name base 1)).
  { intros ts. unfold reserved_env_vars, common_env_vars.
    apply Z.ltb_lt in Hnum as ->. apply lookup_insert_eq. }
  split; [done|]. split; [done|]. split; [apply append_not_id|].
  intros r [-> _]%launched_env_vars Hun. unfold final_env_vars.
  rewrite merge_plugin_vars_lookup, last_binding_unbound by done.
  by rewrite merge_env_vars_lookup, Hreserved.
Qed.

(** C10. The reserved variables are built per call: the secondary-hostname
    key is not among them when there is at most one container, nor the
    telemetry-endpoint key when telemetry is disabled.  A runtime variable
    under such a key is then no conflict: the key is not in the set the
    check tests, so a Conflict error never names it and none is raised when
    no other runtime key collides; the variable is carried by the merge with
    the reserved variables, and its key is bound in the final environment
    and in that of every container launched, to the caller's value unless a
    plugin binds the key. *)
Theorem unreserved_key_survives (w : World P) (key value : string) :
  (key = "FATMAN_USER_MODULE_HOSTNAME" ∧ containers_num ≤ 1)
  ∨ (key = "OPENTELEMETRY_ENDPOINT" ∧ Config.open_telemetry_enabled config = false) →
  runtime_env_vars !! key = Some value →
  (∀ ts,
     reserved ts !! key = None
     ∧ (key ∉ conflicts (reserved ts) runtime_env_vars)
     ∧ merge_env_vars runtime_env_vars (reserved ts) !! key = Some value
     ∧ (conflicts (reserved ts) runtime_env_vars = ∅ →
        ∀ w', ∃ env,
          result (compose_env_vars P runtime_env_vars (reserved ts) plugin_engine w') = inr env
          ∧ is_Some (env !! key)
          ∧ ((∀ plugin_vars,
                Some plugin_vars ∈ PluginEngine.fatman_runtime_env_vars plugin_engine →
                plugin_vars !! key = None) →
             env !! key = Some value)))
  ∧ (∀ msg cs, result (deploy w) = inl (RuntimeError msg cs) → key ∉ cs)
  ∧ (∀ r, r ∈ launched (trace (deploy w)) →
       is_Some (env_vars r !! key)
       ∧ ((∀ plugin_vars,
             Some plugin_vars ∈ PluginEngine.fatman_runtime_env_vars plugin_engine →
             plugin_vars !! key = None) →
          env_vars r !! key = Some value)).
Proof.
  intros Hkey Hrun.
  assert (Hfree : ∀ ts, reserved ts !! key = None).
  { intros ts. unfold reserved_env_vars, common_env_vars.
    destruct Hkey as [[-> Hnum] | [-> Htel]].
    - apply Z.ltb_ge in Hnum as ->.
      destruct (Config.open_telemetry_enabled config); by simplify_map_eq.
    - rewrite Htel. destruct (1 <? containers_num); by simplify_map_eq. }
  assert (Hmerge : ∀ ts, merge_env_vars runtime_env_vars (reserved ts) !! key = Some value).
  { intros ts. by rewrite merge_env_vars_lookup, Hfree. }
  assert (Hnot : ∀ ts, key ∉ conflicts (reserved ts) runtime_env_vars).
  { intros ts. unfold conflicts. intros [Hin _]%elem_of_intersection.
    apply elem_of_dom in Hin as [v Hv]. by rewrite Hfree in Hv. }
  assert (Hfinal : ∀ ts,
            is_Some (final_env_vars P manifest config plugin_engine runtime_env_vars family
                       containers_num ts !! key)
            ∧ ((∀ plugin_vars,
                  Some plugin_vars ∈ PluginEngine.fatman_runtime_env_vars plugin_engine →
                  plugin_vars !! key = None) →
               final_env_vars P manifest config plugin_engine runtime_env_vars family
                 containers_num ts !! key = Some value)).
  { intros ts. unfold final_env_vars. split.
    - apply merge_plugin_vars_dom. by rewrite Hmerge.
    - intros Hun. by rewrite merge_plugin_vars_lookup, last_binding_unbound. }
  split; [|split].
  - intros ts. split; [done|]. split; [done|]. split; [done|].
    intros Hconf w'. rewrite compose_env_vars_run.
    case_bool_decide; [done|]. eexists. split; [done|]. apply Hfinal.
  - intros msg cs Hres.
    destruct (deploy_fatman_trace w) as [(_ & _ & _ & _ & Herr) | (port & k & _ & _ & _ & _ & _ & Herr)].
    + apply Herr in Hres as [[rc [=]] | [[[=] _] | [[= -> ->] Hne]]]. apply Hnot.
    + apply Herr in Hres as [rc [=]].
  - intros r [-> _]%launched_env_vars. apply Hfinal.
Qed.

End Deployment.

(** ** Deletion *)

Section Deletion.

Variables (P : Platform) (self : DockerDaemonDeployer).
Variables (fatman_name fatman_version : string).

Local Abbreviation base := (fatman_resource_name P fatman_name fatman_version).

(** C8. [delete_fatman] looks at the containers of the slots 0 and 1 and at
    no other: it checks the container of slot 0 and removes it when the
    check found it, then does the same for slot 1, and issues nothing else;
    the only errors are those of its commands.  When the checks find neither
    container the two checks are all it issues, no removal among them, and
    it returns without error. *)
Theorem delete_fatman_two_slots (w : World P) :
  let name0 := get_container_name base 0 in
  let name1 := get_container_name base 1 in
  let check0 := _container_exists P self name0 w in
  let slot0 := _delete_container_if_exists P self name0 w in
  let check1 := _container_exists P self name1 (world_after slot0) in
  let o := delete_fatman P self fatman_name fatman_version w in
  name0 = base
  ∧ name1 = base +:+ "-1"
  ∧ trace o
    = (Shell (existence_check self name0)
       :: if found check0 then [Shell (removal self name0)] else [])
      ++ match result slot0 with
         | inl _ => []
         | inr _ => Shell (existence_check self name1)
                    :: if found check1 then [Shell (removal self name1)] else []
         end
  ∧ (∀ e, result o = inl e → is_command_error e)
  ∧ (result check0 = inr false → result check1 = inr false →
     result o = inr tt
     ∧ trace o = [Shell (existence_check self name0); Shell (existence_check self name1)]
     ∧ filter (fun ev => is_removal ev = true) (trace o) = []).
Proof.
  intros name0 name1 check0 slot0 check1 o.
  assert (Htrace : trace o
    = (Shell (existence_check self name0)
       :: if found check0 then [Shell (removal self name0)] else [])
      ++ match result slot0 with
         | inl _ => []
         | inr _ => Shell (existence_check self name1)
                    :: if found check1 then [Shell (removal self name1)] else []
         end).
  { subst o. unfold delete_fatman. change (Py.range 2) with [0; 1]. simpl.
    rewrite bind_trace, delete_container_if_exists_trace.
    fold name0 name1 check0 slot0.
    assert (Hslot1 : trace (bind (_delete_container_if_exists P self name1)
                              (fun _ => ret tt) (world_after slot0))
                     = Shell (existence_check self name1)
                       :: if found check1 then [Shell (removal self name1)] else []).
    { rewrite bind_trace, delete_container_if_exists_trace. fold check1.
      destruct (result (_delete_container_if_exists P self name1 (world_after slot0)));
        rewrite app_nil_r; f_equal; unfold found; by destruct (result check1) as [e'|[]]. }
    rewrite Hslot1. unfold found. by destruct (result check0) as [e|[]]. }
  split; [done|]. split; [done|]. split; [done|].
  split; [apply raises_delete_fatman|].
  intros Habsent0 Habsent1.
  assert (Hslot0 : result slot0 = inr tt).
  { subst slot0. unfold _delete_container_if_exists. rewrite bind_result.
    fold check0. by rewrite Habsent0. }
  assert (Hslot1 : result (_delete_container_if_exists P self name1 (world_after slot0)) = inr tt).
  { unfold _delete_container_if_exists. rewrite bind_result.
    fold check1. by rewrite Habsent1. }
  assert (Htr : trace o = [Shell (existence_check self name0); Shell (existence_check self name1)]).
  { rewrite Htrace. unfold found. by rewrite Habsent0, Habsent1, Hslot0. }
  split; [|split; [done | by rewrite Htr]].
  subst o. unfold delete_fatman. change (Py.range 2) with [0; 1]. simpl.
  rewrite bind_result. fold name0 slot0. rewrite Hslot0.
  rewrite bind_result. fold name1. by rewrite Hslot1.
Qed.

End Deletion.

Example base_name : Runs.base = "fatman-adder-v-0-0-1".
Proof. reflexivity. Qed.

Example occupied_ports_of_listing :
  occupied_ports
    ("fatman-adder-v-0-0-1 0.0.0.0:7000->7000/tcp, :::7000->7000/tcp" +:+ Docker.LF +:+
     "fatman-adder-v-0-0-1-1 " +:+ Docker.LF +:+
     "fatman-mul-v-1-2-0 0.0.0.0:7010->7000/tcp" +:+ Docker.LF)
  = {[7000; 7010]}.
Proof. by vm_compute. Qed.

(** The format of the port listing names no field: the daemon of [Docker]
    answers with the format itself, one line per container, and no port is
    read from it. *)
Example port_listing_on_docker :
  (Docker.exec (port_listing Docker.deployer) Docker.host_with_adder).1
  = inr ("{.Names} {.Ports}" +:+ Docker.LF +:+ "{.Names} {.Ports}" +:+ Docker.LF)
  ∧ occupied_ports ("{.Names} {.Ports}" +:+ Docker.LF +:+ "{.Names} {.Ports}" +:+ Docker.LF) = ∅.
Proof. split; by vm_compute. Qed.

(** C1, counterexample. Deploying three containers, every container gets
    the secondary-hostname variable, and its value is the name of the
    container at index 1, not the name of the primary container. *)
Lemma secondary_hostname_not_primary :
  get_container_name Runs.base 0 = "fatman-adder-v-0-0-1"
  ∧ map container_name (launched (trace Runs.three_containers))
    = ["fatman-adder-v-0-0-1"; "fatman-adder-v-0-0-1-1"; "fatman-adder-v-0-0-1-2"]
  ∧ map (fun r => env_vars r !! Runs.key_hostname) (launched (trace Runs.three_containers))
    = [Some "fatman-adder-v-0-0-1-1"; Some "fatman-adder-v-0-0-1-1";
       Some "fatman-adder-v-0-0-1-1"]
  ∧ Some "fatman-adder-v-0-0-1-1" ≠ Some (get_container_name Runs.base 0).
Proof. repeat split; by vm_compute. Qed.

Lemma secondary_hostname_is_index_1_witness :
  1 < 3
  ∧ ∀ r, r ∈ launched (trace Runs.three_containers) →
         env_vars r !! Runs.key_hostname = Some "fatman-adder-v-0-0-1-1".
Proof.
  split; [reflexivity|]. intros r Hr.
  destruct (secondary_hostname_is_index_1 Docker.platform Docker.deployer Docker.adder
              Docker.config Docker.no_plugins "latest" ∅ Docker.family 3 Docker.empty_host
              eq_refl) as (_ & _ & _ & Henv).
  apply (Henv r Hr). intros plugin_vars Hin. inversion Hin.
Defined.

(** C2, counterexample. A deployer without hostname redeploys a workload
    whose two containers run: the call fails with the precondition error
    after six remote commands, among them the removal of both containers. *)
Lemma commands_before_hostname_check :
  Py.truthy_opt_str (InfrastructureConfig.hostname (infra_config Docker.deployer_without_hostname))
  = false
  ∧ result Runs.redeploy_without_hostname
    = inl (AssertionError "hostname of a docker daemon must be set")
  ∧ trace Runs.redeploy_without_hostname
    = [Shell (DockerPs "ssh://dev@10.0.0.7" true "^/fatman-adder-v-0-0-1$" "{{.Names}}");
       Shell (DockerPs "ssh://dev@10.0.0.7" true "^/fatman-adder-v-0-0-1$" "{{.Names}}");
       Shell (DockerRmForce "ssh://dev@10.0.0.7" "fatman-adder-v-0-0-1");
       Shell (DockerPs "ssh://dev@10.0.0.7" true "^/fatman-adder-v-0-0-1-1$" "{{.Names}}");
       Shell (DockerRmForce "ssh://dev@10.0.0.7" "fatman-adder-v-0-0-1-1");
       Shell (DockerPs "ssh://dev@10.0.0.7" false "^/fatman-" "{.Names} {.Ports}")]
  ∧ Docker.containers (world_after Runs.redeploy_without_hostname) = []
  ∧ length (Docker.containers Docker.host_with_adder) = 2%nat.
Proof. repeat split; by vm_compute. Qed.

Lemma deploy_without_hostname_witness :
  Py.truthy_opt_str (InfrastructureConfig.hostname (infra_config Docker.deployer_without_hostname))
  = false
  ∧ launched (trace Runs.redeploy_without_hostname) = []
  ∧ hook_invocations (trace Runs.redeploy_without_hostname) = O.
Proof.
  split; [reflexivity|].
  destruct (deploy_without_hostname Docker.platform Docker.deployer_without_hostname
              Docker.adder Docker.config Docker.no_plugins "latest" ∅ Docker.family 1
              Docker.host_with_adder eq_refl) as (_ & _ & _ & _ & _ & _ & Hl & Hh).
  split; [exact Hl | exact Hh].
Defined.

(** C3, counterexample. A redeployment whose runtime variables bind a
    reserved key fails with the Conflict error, and the two containers that
    ran before the call are gone after it. *)
Lemma conflict_after_removal :
  result Runs.redeploy_with_conflict
  = inl (RuntimeError "found illegal runtime env vars, which conflict with reserved names: "
                      {[ "FATMAN_NAME" ]})
  ∧ map Docker.cname (Docker.containers Docker.host_with_adder)
    = ["fatman-adder-v-0-0-1"; "fatman-adder-v-0-0-1-1"]
  ∧ Docker.containers (world_after Runs.redeploy_with_conflict) = []
  ∧ world_after Runs.redeploy_with_conflict ≠ Docker.host_with_adder.
Proof. repeat split; [by vm_compute.. | discriminate]. Qed.

Lemma deploy_conflict_effects_witness :
  result Runs.deploy_with_conflict
  = inl (RuntimeError "found illegal runtime env vars, which conflict with reserved names: "
                      {[ "FATMAN_NAME" ]})
  ∧ launched (trace Runs.deploy_with_conflict) = []
  ∧ world_after Runs.deploy_with_conflict = Docker.empty_host.
Proof.
  assert (Hres : result Runs.deploy_with_conflict
                 = inl (RuntimeError
                          "found illegal runtime env vars, which conflict with reserved names: "
                          {[ "FATMAN_NAME" ]})) by (by vm_compute).
  destruct (deploy_conflict_effects Docker.platform Docker.deployer Docker.adder Docker.config
              Docker.no_plugins "latest" Runs.colliding Docker.family 1 Docker.empty_host
              _ _ Hres) as (Hl & _ & _ & _ & _ & Habsent).
  split; [exact Hres|]. split; [exact Hl|].
  apply Habsent; [by vm_compute|].
  intros c w' Hc. destruct c; try discriminate. reflexivity.
Defined.

Lemma deploy_launches_each_container_witness :
  result Runs.three_containers
  = inr (descriptor Docker.deployer Docker.adder "latest" 1700000000 7000)
  ∧ length (launched (trace Runs.three_containers)) = 3%nat.
Proof.
  assert (Hres : result Runs.three_containers
                 = inr (descriptor Docker.deployer Docker.adder "latest" 1700000000 7000))
    by (by vm_compute).
  pose proof (deploy_launches_each_container Docker.platform Docker.deployer Docker.adder
                Docker.config Docker.no_plugins "latest" ∅ Docker.family 3 Docker.empty_host)
    as Hlaunch.
  destruct (Hlaunch _ Hres) as (port & _ & _ & Hlen & _).
  split; [exact Hres | exact Hlen].
Defined.

Lemma unreserved_key_survives_witness :
  (Runs.key_hostname = "FATMAN_USER_MODULE_HOSTNAME" ∧ 1 ≤ 1)
  ∧ Runs.own_hostname !! Runs.key_hostname = Some "elsewhere"
  ∧ ∀ r, r ∈ launched (trace Runs.deploy_own_hostname) →
         env_vars r !! Runs.key_hostname = Some "elsewhere".
Proof.
  assert (Hkey : Runs.key_hostname = "FATMAN_USER_MODULE_HOSTNAME" ∧ 1 ≤ 1)
    by (split; [reflexivity | discriminate]).
  assert (Hrun : Runs.own_hostname !! Runs.key_hostname = Some "elsewhere") by (by vm_compute).
  split; [exact Hkey|]. split; [exact Hrun|]. intros r Hr.
  destruct (unreserved_key_survives Docker.platform Docker.deployer Docker.adder Docker.config
              Docker.no_plugins "latest" Runs.own_hostname Docker.family 1 Docker.empty_host
              Runs.key_hostname "elsewhere" (or_introl Hkey) Hrun) as (_ & _ & Hl).
  destruct (Hl r Hr) as [_ Hval]. apply Hval.
  intros plugin_vars Hin. inversion Hin.
Defined.

Example own_hostname_launched :
  map (fun r => env_vars r !! Runs.key_hostname) (launched (trace Runs.deploy_own_hostname))
  = [Some "elsewhere"].
Proof. by vm_compute. Qed.

Example delete_absent :
  result (delete_fatman Docker.platform Docker.deployer "adder" "0.0.1" Docker.empty_host) = inr tt
  ∧ trace (delete_fatman Docker.platform Docker.deployer "adder" "0.0.1" Docker.empty_host)
    = [Shell (DockerPs "ssh://dev@10.0.0.7" true "^/fatman-adder-v-0-0-1$" "{{.Names}}");
       Shell (DockerPs "ssh://dev@10.0.0.7" true "^/fatman-adder-v-0-0-1-1$" "{{.Names}}")].
Proof. split; by vm_compute. Qed.

Example delete_present :
  trace (delete_fatman Docker.platform Docker.deployer "adder" "0.0.1" Docker.host_with_adder)
  = [Shell (DockerPs "ssh://dev@10.0.0.7" true "^/fatman-adder-v-0-0-1$" "{{.Names}}");
     Shell (DockerRmForce "ssh://dev@10.0.0.7" "fatman-adder-v-0-0-1");
     Shell (DockerPs "ssh://dev@10.0.0.7" true "^/fatman-adder-v-0-0-1-1$" "{{.Names}}");
     Shell (DockerRmForce "ssh://dev@10.0.0.7" "fatman-adder-v-0-0-1-1")]
  ∧ Docker.containers
      (world_after (delete_fatman Docker.platform Docker.deployer "adder" "0.0.1"
                                  Docker.host_with_adder)) = [].
Proof. split; by vm_compute. Qed.

(** Deleting a workload that was never deployed, through C8. *)
Lemma delete_fatman_two_slots_witness :
  result (delete_fatman Docker.platform Docker.deployer "adder" "0.0.1" Docker.empty_host) = inr tt
  ∧ filter (fun ev => is_removal ev = true)
      (trace (delete_fatman Docker.platform Docker.deployer "adder" "0.0.1" Docker.empty_host))
    = [].
Proof.
  pose proof (delete_fatman_two_slots Docker.platform Docker.deployer "adder" "0.0.1"
                Docker.empty_host) as Hslots.
  cbv zeta in Hslots. destruct Hslots as (_ & _ & _ & _ & Habsent).
  destruct Habsent as (Hres & _ & Hrm); [by vm_compute | by vm_compute |].
  split; [exact Hres | exact Hrm].
Defined.

(** Redeploying leaves one container per slot, the primary once. *)
Example redeploy_replaces :
  map Docker.cname (Docker.containers (world_after Runs.deploy_twice))
  = ["fatman-adder-v-0-0-1"; "fatman-adder-v-0-0-1-1"]
  ∧ map is_removal (trace Runs.deploy_twice)
    = [false; false; true; false; true; false; false; false; false; false].
Proof. split; by vm_compute. Qed.

(** The plugins of [Runs.three_plugins]: the later mapping wins, also over a
    reserved variable, and the call returns. *)
Example plugins_override :
  hook_invocations (trace Runs.deploy_three_plugins) = 1%nat
  ∧ map (fun r => (env_vars r !! "LOG_LEVEL", env_vars r !! "REGION", env_vars r !! "FATMAN_NAME"))
        (launched (trace Runs.deploy_three_plugins))
    = [(Some "debug", Some "south", Some "renamed")]
  ∧ (∃ dto, result Runs.deploy_three_plugins = inr dto).
Proof. split; [|split]; [by vm_compute.. | eexists; by vm_compute]. Qed.

(** C7, counterexample. A deployment whose runtime variables bind a reserved
    key fails with the Conflict error before the plugin hook: the hook is
    not invoked, the two listings are all the call did. *)
Lemma hook_not_invoked_on_conflict :
  result Runs.deploy_with_conflict
  = inl (RuntimeError "found illegal runtime env vars, which conflict with reserved names: "
                      {[ "FATMAN_NAME" ]})
  ∧ hook_invocations (trace Runs.deploy_with_conflict) = O
  ∧ trace Runs.deploy_with_conflict
    = [Shell (DockerPs "ssh://dev@10.0.0.7" true "^/fatman-adder-v-0-0-1$" "{{.Names}}");
       Shell (DockerPs "ssh://dev@10.0.0.7" false "^/fatman-" "{.Names} {.Ports}")].
Proof. repeat split; by vm_compute. Qed.

(** The composition through C7, on the plugins of [Runs.three_plugins]. *)
Lemma plugin_vars_later_wins_witness :
  hook_invocations (trace Runs.deploy_three_plugins) = 1%nat
  ∧ ∀ r, r ∈ launched (trace Runs.deploy_three_plugins) → env_vars r !! "REGION" = Some "south".
Proof.
  pose proof (plugin_vars_later_wins Docker.platform Docker.deployer Docker.adder Docker.config
                Runs.three_plugins "latest" ∅ Docker.family 1 Docker.empty_host) as Hlater.
  cbv zeta in Hlater. destruct Hlater as (_ & _ & Honce & Henv & Hlookup & _).
  split.
  - apply (Honce (descriptor Docker.deployer Docker.adder "latest" 1700000000 7000)).
    by vm_compute.
  - intros r Hr. rewrite (Henv r Hr), Hlookup. reflexivity.
Defined.

(** The conflict check through C4, on runtime variables binding [FATMAN_NAME]. *)
Lemma conflict_check_witness :
  launched (trace Runs.redeploy_with_conflict) = []
  ∧ ∃ ts, ∀ key, key ∈ ({[ "FATMAN_NAME" ]} : gset string)
                 ↔ key ∈ dom Runs.colliding
                   ∧ key ∈ dom (reserved_env_vars Docker.platform Docker.adder Docker.config
                                  Docker.family 1 ts).
Proof.
  pose proof (conflict_check Docker.platform Docker.deployer Docker.adder Docker.config
                Docker.no_plugins "latest" Runs.colliding Docker.family 1 ∅
                Docker.host_with_adder) as (_ & _ & Hdeploy).
  destruct (Hdeploy "found illegal runtime env vars, which conflict with reserved names: "
                    {[ "FATMAN_NAME" ]}) as (Hl & _ & Hkeys); [by vm_compute|].
  split; [exact Hl | exact Hkeys].
Defined.

(** * Further properties of the deployer *)

(** ** Names of the containers of one workload *)

Lemma append_cancel_l (s a b : string) : s +:+ a = s +:+ b → a = b.
Proof. induction s as [|c s IH]; simpl; [done|]. intros [= H]. by apply IH. Qed.

Lemma str_of_int_inj (n m : Z) : Py.str_of_int n = Py.str_of_int m → n = m.
Proof.
  unfold Py.str_of_int. intros Heq.
  assert (Hnorm : ∀ z, Z.to_int z ≠ Decimal.Pos Decimal.Nil ∧ Z.to_int z ≠ Decimal.Neg Decimal.Nil).
  { intros [|p|p]; simpl; split; try discriminate;
      intros [= H]; by apply (DecimalPos.Unsigned.to_uint_nonnil p). }
  apply DecimalZ.to_int_inj.
  destruct (Hnorm n) as [Hn1 Hn2], (Hnorm m) as [Hm1 Hm2].
  pose proof (NilZero.isi _ Hn1 Hn2) as Hn. pose proof (NilZero.isi _ Hm1 Hm2) as Hm.
  rewrite Heq, Hm in Hn. by injection Hn.
Qed.

Lemma append_char_cancel_r (a b : string) (c : ascii) :
  a +:+ String c "" = b +:+ String c "" → a = b.
Proof.
  revert b. induction a as [|x a IH]; intros [|y b]; simpl; try done.
  - intros [= _ H]. by destruct b.
  - intros [= _ H]. by destruct a.
  - intros [= -> H]. f_equal. by apply IH.
Qed.

Lemma get_container_name_inj (base : string) (i j : Z) :
  get_container_name base i = get_container_name base j → i = j.
Proof.
  unfold get_container_name.
  destruct (Z.eqb_spec i 0) as [->|Hi], (Z.eqb_spec j 0) as [->|Hj]; [done|..].
  - intros Heq. symmetry in Heq. by apply append_not_id in Heq.
  - intros Heq. by apply append_not_id in Heq.
  - intros Heq%append_cancel_l. injection Heq as Heq. by apply str_of_int_inj.
Qed.

(** X1. The containers of one workload have names of their own: two indices
    give the same name only when they are the same index, whatever the base
    name, and the name of an index other than 0 is never the base name. *)
Theorem container_names_distinct (base : string) (i j : Z) :
  (get_container_name base i = get_container_name base j ↔ i = j)
  ∧ (get_container_name base i = base ↔ i = 0).
Proof.
  split.
  - split; [apply get_container_name_inj | by intros ->].
  - split; [|by intros ->].
    intros Heq. by apply (get_container_name_inj base i 0).
Qed.

(** ** The port and the descriptor *)

Lemma next_port_bounds (occupied : gset Z) :
  7000 ≤ next_port occupied ≤ 8000 ∧ next_port occupied mod 10 = 0.
Proof.
  unfold next_port.
  change (Py.range3 7000 8000 10)
    with (map (fun k : nat => 7000 + 10 * Z.of_nat k) (seq 0 100)).
  destruct (first_unoccupied_seq occupied 100 0) as [(k & Hk & -> & _) | [-> _]];
    simpl in *; [|done].
  split; [lia|].
  replace (7000 + 10 * Z.of_nat k) with ((700 + Z.of_nat k) * 10) by lia.
  apply Z.mod_mul. lia.
Qed.

Lemma truthy_opt_str_some (o : option string) :
  Py.truthy_opt_str o = true → ∃ s, o = Some s ∧ s ≠ "".
Proof. destruct o as [[|c s]|]; try discriminate. intros _. by eexists. Qed.

Section Further.

Variables (P : Platform) (self : DockerDaemonDeployer).
Variables (manifest : Manifest.t) (config : Config.t) (plugin_engine : PluginEngine.t)
  (tag : string) (runtime_env_vars : gmap string string) (family : FatmanFamilyDto.t)
  (containers_num : Z).

Local Abbreviation base :=
  (fatman_resource_name P (Manifest.name manifest) (Manifest.version manifest)).
Local Abbreviation deploy :=
  (deploy_fatman P self manifest config plugin_engine tag runtime_env_vars family containers_num).
Local Abbreviation prelude := (deploy_prelude P self manifest).
Local Abbreviation reserved :=
  (reserved_env_vars P manifest config family containers_num).
Local Abbreviation final :=
  (final_env_vars P manifest config plugin_engine runtime_env_vars family containers_num).
Local Abbreviation hostname_set :=
  (Py.truthy_opt_str (InfrastructureConfig.hostname (infra_config self))).
Local Abbreviation exists_ :=
  (fatman_exists P self (Manifest.name manifest) (Manifest.version manifest)).
Local Abbreviation delete :=
  (delete_fatman P self (Manifest.name manifest) (Manifest.version manifest)).

(** The port of the prelude is one the scan picked. *)
Lemma deploy_prelude_port (w : World P) (fatman_port : Z) :
  result (prelude w) = inr fatman_port →
  ∃ output, fatman_port = next_port (occupied_ports output).
Proof.
  unfold deploy_prelude. rewrite bind_result.
  destruct (result (exists_ w)) as [e|present]; [discriminate|].
  rewrite bind_result.
  destruct (result _) as [e|[]]; [discriminate|].
  unfold _get_next_fatman_port. rewrite bind_result, shell_output_result.
  destruct (run_command P _ _).1 as [rc|output]; [discriminate|].
  intros [= <-]. by eexists.
Qed.

(** X2. The descriptor of a deployment that returns: it names the workload,
    its manifest, the tag and the infrastructure target, its status is
    [running], both times are the clock read after the former instance was
    replaced, and its internal name is the hostname, which is set and not
    empty, a colon and the port; the port is the one the prelude picked, a
    multiple of 10 from 7000 to 8000. *)
Theorem deploy_descriptor (w : World P) (dto : FatmanDto.t) :
  result (deploy w) = inr dto →
  ∃ (hostname : string) (fatman_port : Z),
    InfrastructureConfig.hostname (infra_config self) = Some hostname
    ∧ hostname ≠ ""
    ∧ result (prelude w) = inr fatman_port
    ∧ 7000 ≤ fatman_port ≤ 8000
    ∧ fatman_port mod 10 = 0
    ∧ FatmanDto.internal_name dto = hostname +:+ ":" +:+ Py.str_of_int fatman_port
    ∧ FatmanDto.name dto = Manifest.name manifest
    ∧ FatmanDto.version dto = Manifest.version manifest
    ∧ FatmanDto.manifest dto = manifest
    ∧ FatmanDto.status dto = "running"
    ∧ FatmanDto.image_tag dto = tag
    ∧ FatmanDto.infrastructure_target dto = infrastructure_target self
    ∧ FatmanDto.create_time dto = timestamp_now P (world_after (prelude w))
    ∧ FatmanDto.update_time dto = FatmanDto.create_time dto.
Proof.
  intros Hres.
  destruct (deploy_fatman_trace P self manifest config plugin_engine tag runtime_env_vars
              family containers_num w)
    as [(_ & _ & Hno & _) | (port & k & Hpre & Hhost & _ & _ & Hok & _)].
  { by destruct (Hno dto). }
  destruct (Hok dto Hres) as [_ ->].
  destruct (truthy_opt_str_some _ Hhost) as (hostname & Hname & Hne).
  destruct (deploy_prelude_port w port Hpre) as [output ->].
  exists hostname, (next_port (occupied_ports output)).
  split; [done|]. split; [done|]. split; [done|].
  split; [apply next_port_bounds|]. split; [apply next_port_bounds|].
  unfold descriptor; simpl. rewrite Hname. done.
Qed.

(** ** What follows the prelude *)

Lemma run_containers_no_slot_event (fatman_port : Z) (env : gmap string string)
    (indices : list Z) :
  Forall (fun ev => slot_event ev = false)
    (map (fun i => Shell (run_container P self manifest config tag base fatman_port env i))
         indices).
Proof. induction indices as [|i indices IH]; [constructor|]. by constructor. Qed.

(** After its prelude a deployment lists and removes nothing; what it
    launches is a prefix of the topology. *)
Lemma deploy_after_prelude (w : World P) :
  ∃ (rest : list event) (fatman_port : Z) (k : nat),
    trace (deploy w) = trace (prelude w) ++ rest
    ∧ Forall (fun ev => slot_event ev = false) rest
    ∧ launched (trace (deploy w))
      = map (container_options P manifest config tag base fatman_port
               (final (timestamp_now P (world_after (prelude w)))))
            (take k (Py.range containers_num))
    ∧ (∀ dto, result (deploy w) = inr dto → k = length (Py.range containers_num))
    ∧ (launched (trace (deploy w)) ≠ [] → result (prelude w) = inr fatman_port).
Proof.
  destruct (deploy_fatman_trace P self manifest config plugin_engine tag runtime_env_vars
              family containers_num w)
    as [(Htr & _ & Hno & _) | (port & k & Hpre & _ & _ & Htr & Hok & _)].
  - exists [], 0, O. rewrite Htr, app_nil_r. split; [done|]. split; [constructor|].
    rewrite launched_slot_events by apply emits_deploy_prelude.
    split; [by rewrite take_0|]. split; [intros dto Hd; by destruct (Hno dto) | done].
  - eexists _, port, k. split; [exact Htr|]. split.
    { repeat constructor. apply run_containers_no_slot_event. }
    rewrite Htr, launched_app, launched_slot_events by apply emits_deploy_prelude.
    rewrite app_nil_l, !launched_cons, launched_run_containers.
    split; [done|]. split; [intros dto Hd; by destruct (Hok dto Hd) | done].
Qed.

(** X3. Nothing is rolled back: when a deployment fails after it issued
    launches, it fails with the error of a remote command, the launches
    issued are those of the indices 0, 1, ..., k-1 in that order, for some k
    from 1 to the number of containers (the last one issued included,
    whether it succeeded or not), and no command after the prelude lists or
    removes a container. *)
Theorem deploy_failure_keeps_launched (w : World P) (e : exn) :
  result (deploy w) = inl e →
  launched (trace (deploy w)) ≠ [] →
  is_command_error e
  ∧ ∃ (rest : list event) (fatman_port : Z) (k : nat),
      (0 < k ≤ Z.to_nat containers_num)%nat
      ∧ result (prelude w) = inr fatman_port
      ∧ trace (deploy w) = trace (prelude w) ++ rest
      ∧ Forall (fun ev => is_removal ev = false ∧ is_listing ev = false) rest
      ∧ map container_name (launched (trace (deploy w)))
        = map (fun i : nat => get_container_name base (Z.of_nat i)) (seq 0 k).
Proof.
  intros Hres Hlaunched.
  split.
  { destruct (deploy_fatman_trace P self manifest config plugin_engine tag runtime_env_vars
                family containers_num w)
      as [(Htr & _) | (port & k & _ & _ & _ & _ & _ & Herr)]; [|by apply Herr].
    destruct Hlaunched. rewrite Htr. apply launched_slot_events, emits_deploy_prelude. }
  destruct (deploy_after_prelude w) as (rest & port & k & Htr & Hrest & Hl & _ & Hport).
  assert (Htake : take k (Py.range containers_num)
                  = map Z.of_nat (seq 0 (k `min` Z.to_nat containers_num))).
  { by rewrite range_indices, <- fmap_take, take_seq. }
  rewrite Htake in Hl.
  exists rest, port, (k `min` Z.to_nat containers_num)%nat.
  split.
  { split; [|lia].
    destruct (k `min` Z.to_nat containers_num)%nat; [by rewrite Hl in Hlaunched | lia]. }
  split; [by apply Hport|]. split; [done|]. split.
  { eapply Forall_impl; [exact Hrest|]. intros ev. unfold slot_event.
    destruct (is_listing ev), (is_removal ev); done. }
  rewrite Hl, <- !list_fmap_compose.
  apply list_fmap_ext. intros _ i _. done.
Qed.

(** X4. What a deployment raises, under the assumptions of this model: the
    functions imported from outside the deployer return (the resource name,
    the token of the family, the clock, the plugin hook, the merge, the
    image name), and [shell] and [shell_output] fail with [CommandError]
    only, which leaves out the refusal by [shell] of a command line too long
    for a terminal.  Then a deployment fails in three ways only: with the
    [CommandError] of one of its remote commands, with the assertion on the
    hostname, and then the hostname is missing or empty, or with the
    conflict error, and then the keys it names are not empty and are keys
    of the runtime variables. *)
Theorem deploy_fatman_raises (w : World P) (e : exn) :
  result (deploy w) = inl e →
  is_command_error e
  ∨ (e = AssertionError "hostname of a docker daemon must be set" ∧ hostname_set = false)
  ∨ (∃ cs : gset string,
       e = RuntimeError "found illegal runtime env vars, which conflict with reserved names: " cs
       ∧ cs ≠ ∅ ∧ cs ⊆ dom runtime_env_vars).
Proof.
  intros Hres.
  destruct (deploy_fatman_trace P self manifest config plugin_engine tag runtime_env_vars
              family containers_num w)
    as [(_ & _ & _ & _ & Herr) | (port & k & _ & _ & _ & _ & _ & Herr)];
    [|left; by apply Herr].
  destruct (Herr e Hres) as [Hc | [Ha | [-> Hne]]]; [by left | by right; left |].
  right; right. eexists. split; [done|]. split; [done|].
  unfold conflicts. apply intersection_subseteq_r.
Qed.

(** ** Replacing the former instance *)

Lemma filter_removal_none (tr : list event) :
  Forall (fun ev => is_removal ev = false) tr →
  filter (fun ev => is_removal ev = true) tr = [].
Proof.
  induction 1 as [|ev tr Hev _ IH]; [done|].
  rewrite filter_cons, IH. by rewrite Hev.
Qed.

Lemma slot_free_no_removal (tr : list event) :
  Forall (fun ev => slot_event ev = false) tr → Forall (fun ev => is_removal ev = false) tr.
Proof.
  intros Htr. eapply Forall_impl; [exact Htr|].
  intros ev. unfold slot_event. by destruct (is_listing ev), (is_removal ev).
Qed.

(** The prelude, command by command. *)
Lemma deploy_prelude_trace (w : World P) :
  trace (prelude w)
  = Shell (existence_check self (get_container_name base 0))
    :: match result (exists_ w) with
       | inl _ => []
       | inr true =>
           trace (delete (world_after (exists_ w)))
           ++ match result (delete (world_after (exists_ w))) with
              | inl _ => []
              | inr _ => [Shell (port_listing self)]
              end
       | inr false => [Shell (port_listing self)]
       end.
Proof.
  unfold deploy_prelude. rewrite bind_trace.
  assert (Hport : ∀ w', trace (_get_next_fatman_port P self w') = [Shell (port_listing self)]).
  { intros w'. unfold _get_next_fatman_port. rewrite bind_trace, shell_output_trace.
    unfold port_listing. by destruct (result _). }
  unfold fatman_exists at 1. rewrite container_exists_trace. simpl. f_equal.
  destruct (result (exists_ w)) as [e|[]]; [done|..]; rewrite bind_trace.
  - destruct (result (delete _)); [done | by rewrite Hport].
  - simpl. by rewrite Hport.
Qed.

(** X5. A deployment removes containers only to replace an instance that
    exists.  When the existence check does not report the primary container
    present, the whole call issues no removal.  When it does, the commands
    of [delete_fatman] come right after the check, before anything else, no
    removal follows them, and the port the call works with is the one read
    from the host as [delete_fatman] left it. *)
Theorem deploy_replaces_only_existing (w : World P) :
  let check := exists_ w in
  let removal_of_former := delete (world_after check) in
  (result check ≠ inr true →
   filter (fun ev => is_removal ev = true) (trace (deploy w)) = [])
  ∧ (result check = inr true →
     ∃ rest,
       trace (deploy w)
       = Shell (existence_check self (get_container_name base 0))
         :: trace removal_of_former ++ rest
       ∧ Forall (fun ev => is_removal ev = false) rest
       ∧ ∀ fatman_port,
           result (prelude w) = inr fatman_port →
           result (_get_next_fatman_port P self (world_after removal_of_former))
           = inr fatman_port).
Proof.
  intros check removal_of_former.
  destruct (deploy_after_prelude w) as (rest & _ & _ & Htr & Hrest%slot_free_no_removal & _).
  rewrite Htr, deploy_prelude_trace. fold check removal_of_former.
  split.
  - intros Hcheck. rewrite filter_app, (filter_removal_none rest Hrest), app_nil_r.
    rewrite filter_cons. simpl.
    destruct (result check) as [e|[]]; [done | done | done].
  - intros Hcheck. rewrite Hcheck.
    exists (match result removal_of_former with
            | inl _ => []
            | inr _ => [Shell (port_listing self)]
            end ++ rest).
    split; [simpl; by rewrite <- app_assoc|]. split.
    { apply Forall_app. split; [|done]. destruct (result removal_of_former); by repeat constructor. }
    intros port. unfold deploy_prelude. rewrite bind_result. fold check. rewrite Hcheck.
    rewrite bind_result. fold removal_of_former.
    by destruct (result removal_of_former) as [e|[]].
Qed.

(** The events of [delete_fatman] are the checks and removals of the slots
    0 and 1. *)
Lemma delete_fatman_events (name version : string) (w : World P) (ev : event) :
  ev ∈ trace (delete_fatman P self name version w) →
  ∃ i, (i = 0 ∨ i = 1)
       ∧ (ev = Shell (existence_check self
                        (get_container_name (fatman_resource_name P name version) i))
          ∨ ev = Shell (removal self
                          (get_container_name (fatman_resource_name P name version) i))).
Proof.
  unfold delete_fatman. change (Py.range 2) with [0; 1]. simpl.
  rewrite bind_trace, delete_container_if_exists_trace.
  intros [Hev | Hev]%elem_of_app.
  - exists 0. split; [by left|].
    apply elem_of_cons in Hev as [-> | Hev]; [by left|].
    destruct (result (_container_exists _ _ _ _)) as [e|[]]; try by apply elem_of_nil in Hev.
    apply list_elem_of_singleton in Hev as ->. by right.
  - destruct (result (_delete_container_if_exists _ _ _ _)) as [e|[]];
      [by apply elem_of_nil in Hev|].
    rewrite bind_trace, delete_container_if_exists_trace in Hev.
    apply elem_of_app in Hev as [Hev | Hev].
    + exists 1. split; [by right|].
      apply elem_of_cons in Hev as [-> | Hev]; [by left|].
      destruct (result (_container_exists _ _ _ _)) as [e|[]]; try by apply elem_of_nil in Hev.
      apply list_elem_of_singleton in Hev as ->. by right.
    + destruct (result (_delete_container_if_exists _ _ _ _)); by apply elem_of_nil in Hev.
Qed.

(** X6. Only the containers of the slots 0 and 1 are ever removed: neither
    [delete_fatman] nor a deployment, whatever its number of containers,
    issues the removal of the container of another index, and
    [delete_fatman] does not even check for it. *)
Theorem other_slots_never_removed (w : World P) (i : Z) :
  i ≠ 0 → i ≠ 1 →
  (Shell (removal self (get_container_name base i)) ∉ trace (delete w))
  ∧ (Shell (existence_check self (get_container_name base i)) ∉ trace (delete w))
  ∧ (Shell (removal self (get_container_name base i)) ∉ trace (deploy w)).
Proof.
  intros Hi0 Hi1.
  assert (Hdelete : ∀ w', Shell (removal self (get_container_name base i)) ∉ trace (delete w')).
  { intros w' (j & Hj & [? | Heq])%delete_fatman_events; [done|].
    injection Heq as Heq%get_container_name_inj. destruct Hj; congruence. }
  split; [apply Hdelete|]. split.
  { intros (j & Hj & [Heq | ?])%delete_fatman_events; [|done].
    injection Heq as Heq%append_cancel_l%append_char_cancel_r%get_container_name_inj.
    destruct Hj; congruence. }
  destruct (deploy_after_prelude w) as (rest & _ & _ & Htr & Hrest%slot_free_no_removal & _).
  rewrite Htr, deploy_prelude_trace.
  intros [Hpre | Hin]%elem_of_app.
  - apply elem_of_cons in Hpre as [[=] | Hpre].
    destruct (result (exists_ w)) as [e|[]].
    + by apply elem_of_nil in Hpre.
    + apply elem_of_app in Hpre as [Hd | Hp]; [by apply Hdelete in Hd|].
      destruct (result (delete _)); [by apply elem_of_nil in Hp|].
      by apply list_elem_of_singleton in Hp.
    + by apply list_elem_of_singleton in Hpre.
  - rewrite Forall_forall in Hrest. by apply Hrest in Hin.
Qed.

(** ** The shared network *)

Lemma ensure_network_run (w : World P) :
  result (ensure_network P self w)
  = match (run_command P (network_creation self) w).1 with
    | inl returncode => if returncode =? 1 then inr tt else inl (CommandError returncode)
    | inr _ => inr tt
    end
  ∧ world_after (ensure_network P self w) = (run_command P (network_creation self) w).2.
Proof.
  unfold ensure_network, try_except; simpl.
  pose proof (shell_result P (network_creation self) w) as Hres.
  pose proof (shell_world_after P (network_creation self) w) as Hworld.
  destruct (run_command P (network_creation self) w) as [[rc|output] w']; simpl in *.
  - rewrite Hres. simpl. destruct (rc =? 1); simpl; by rewrite Hworld.
  - rewrite Hres. by rewrite Hres, Hworld.
Qed.

(** X7. The creation of the shared network may fail with exit code 1, and
    with that code only.  In a deployment that reached it, a creation that
    succeeds or fails with code 1 is followed by the launches, run on the
    host as the creation left it, and the deployment ends as the launches
    do; a creation that fails with another code ends the deployment with
    that error, no container launched. *)
Theorem network_creation_tolerance (w : World P) (fatman_port : Z) :
  let ts := timestamp_now P (world_after (prelude w)) in
  let creation := run_command P (network_creation self) (world_after (prelude w)) in
  let launches :=
    for_each (Py.range containers_num)
      (fun i => shell P (run_container P self manifest config tag base fatman_port (final ts) i))
      creation.2 in
  result (prelude w) = inr fatman_port →
  hostname_set = true →
  conflicts (reserved ts) runtime_env_vars = ∅ →
  (∀ returncode, creation.1 = inl returncode → returncode ≠ 1 →
     result (deploy w) = inl (CommandError returncode)
     ∧ launched (trace (deploy w)) = []
     ∧ world_after (deploy w) = creation.2)
  ∧ (creation.1 = inl 1 ∨ (∃ output, creation.1 = inr output) →
     result (deploy w)
     = match result launches with
       | inl e => inl e
       | inr _ => inr (descriptor self manifest tag ts fatman_port)
       end
     ∧ trace (deploy w)
       = trace (prelude w)
         ++ PluginHook "fatman_runtime_env_vars" :: Shell (network_creation self)
            :: trace launches
     ∧ world_after (deploy w) = world_after launches).
Proof.
  intros ts creation launches Hpre Hhost Hconf.
  assert (Hrun : deploy w
    = let launch := launch_containers P self manifest config tag base fatman_port (final ts)
                      containers_num (world_after (prelude w)) in
      Outcome (match result launch with
               | inl e => inl e
               | inr _ => inr (descriptor self manifest tag ts fatman_port)
               end)
              (world_after launch)
              (trace (prelude w) ++ PluginHook "fatman_runtime_env_vars" :: trace launch)).
  { rewrite deploy_fatman_run, Hpre. cbv zeta. rewrite deploy_with_port_run, Hhost. simpl.
    fold ts. rewrite bool_decide_eq_false_2 by (by intros []). done. }
  rewrite Hrun. cbv zeta. simpl.
  unfold launch_containers.
  rewrite bind_result, bind_trace, bind_world_after, ensure_network_trace.
  destruct (ensure_network_run (world_after (prelude w))) as [Hres Hworld].
  fold creation in Hres, Hworld. rewrite Hres, Hworld.
  split.
  - intros rc Hrc Hne. rewrite Hrc. apply Z.eqb_neq in Hne as ->. simpl.
    split; [done|]. split; [|done].
    rewrite launched_app, launched_slot_events by apply emits_deploy_prelude. done.
  - intros [Hone | [output Hout]].
    + rewrite Hone. simpl. done.
    + rewrite Hout. done.
Qed.

(** ** The environment of the containers *)

(** X8. The mapping from which the [--env] options are rendered (line 80)
    is the same in every launch command of one deployment.  The five
    variables always reserved and every runtime variable are bound in it;
    each has the value the deployer or the caller gave it unless a plugin
    binds the same key: the pub URL of the configuration, the name of the
    workload, the token of the family, the rendering of the clock read
    after the prelude, the name of the tracing header.  This is about the
    mapping: line 80 writes names and values into the command line without
    quoting them for the shell, and what the shell makes of that text is
    not modelled. *)
Theorem launch_env_vars_composed (w : World P) (r : run_options) :
  let ts := timestamp_now P (world_after (prelude w)) in
  r ∈ launched (trace (deploy w)) →
  (∀ r', r' ∈ launched (trace (deploy w)) → env_vars r' = env_vars r)
  ∧ reserved ts !! "PUB_URL" = Some (Config.internal_pub_url config)
  ∧ reserved ts !! "FATMAN_NAME" = Some (Manifest.name manifest)
  ∧ reserved ts !! "AUTH_TOKEN" = Some (auth_token P (FatmanFamilyDto.name family))
  ∧ reserved ts !! "FATMAN_DEPLOYMENT_TIMESTAMP" = Some (Py.str_of_int ts)
  ∧ reserved ts !! "REQUEST_TRACING_HEADER" = Some (get_tracing_header_name P)
  ∧ (∀ key value,
       reserved ts !! key = Some value ∨ runtime_env_vars !! key = Some value →
       is_Some (env_vars r !! key)
       ∧ (last_binding key (PluginEngine.fatman_runtime_env_vars plugin_engine) = None →
          env_vars r !! key = Some value)).
Proof.
  intros ts Hr.
  destruct (launched_env_vars P self manifest config plugin_engine tag runtime_env_vars
              family containers_num w r Hr) as [Henv Hconf].
  fold ts in Henv, Hconf.
  split.
  { intros r' Hr'.
    destruct (launched_env_vars P self manifest config plugin_engine tag runtime_env_vars
                family containers_num w r' Hr') as [-> _]. done. }
  assert (Hbase : ∀ key value,
            (<["REQUEST_TRACING_HEADER" := get_tracing_header_name P]>
             (<["FATMAN_DEPLOYMENT_TIMESTAMP" := Py.str_of_int ts]>
             (<["AUTH_TOKEN" := auth_token P (FatmanFamilyDto.name family)]>
             (<["FATMAN_NAME" := Manifest.name manifest]>
             (<["PUB_URL" := Config.internal_pub_url config]> (∅ : gmap string string))))))
            !! key = Some value →
            key ≠ "OPENTELEMETRY_ENDPOINT" → key ≠ "FATMAN_USER_MODULE_HOSTNAME" →
            reserved ts !! key = Some value).
  { intros key value Hkey Hot Hum. unfold reserved_env_vars, common_env_vars.
    destruct (1 <? containers_num), (Config.open_telemetry_enabled config);
      rewrite ?lookup_insert_ne by done; done. }
  split; [by apply Hbase|]. split; [by apply Hbase|]. split; [by apply Hbase|].
  split; [by apply Hbase|]. split; [by apply Hbase|].
  intros key value Hkey.
  assert (Hmerged : merge_env_vars runtime_env_vars (reserved ts) !! key = Some value).
  { rewrite merge_env_vars_lookup. destruct Hkey as [-> | Hrun]; [done|].
    destruct (reserved ts !! key) as [v|] eqn:Hres; [|done].
    assert (key ∈ conflicts (reserved ts) runtime_env_vars) as Hin.
    { unfold conflicts. apply elem_of_intersection. split; apply elem_of_dom; by eexists. }
    rewrite Hconf in Hin. by apply elem_of_empty in Hin. }
  rewrite Henv. unfold final_env_vars. split.
  - apply merge_plugin_vars_dom. by rewrite Hmerged.
  - intros Hlast. by rewrite merge_plugin_vars_lookup, Hlast.
Qed.

(** ** An empty topology *)

(** X9. With a number of containers that is zero or negative a deployment
    launches nothing: a call that gets past its checks creates the network
    and, unless that fails, returns a descriptor whose status is [running],
    having invoked the plugin hook once. *)
Theorem deploy_no_container (w : World P) :
  containers_num ≤ 0 →
  launched (trace (deploy w)) = []
  ∧ ∀ fatman_port,
      result (prelude w) = inr fatman_port →
      hostname_set = true →
      conflicts (reserved (timestamp_now P (world_after (prelude w)))) runtime_env_vars = ∅ →
      trace (deploy w)
      = trace (prelude w)
        ++ [PluginHook "fatman_runtime_env_vars"; Shell (network_creation self)]
      ∧ (result (ensure_network P self (world_after (prelude w))) = inr tt →
         ∃ dto, result (deploy w) = inr dto ∧ FatmanDto.status dto = "running").
Proof.
  intros Hnum.
  assert (Hrange : Py.range containers_num = []).
  { rewrite range_indices. by replace (Z.to_nat containers_num) with O by lia. }
  split.
  { destruct (deploy_after_prelude w) as (_ & port & k & _ & _ & -> & _).
    by rewrite Hrange, take_nil. }
  intros port Hpre Hhost Hconf.
  rewrite deploy_fatman_run, Hpre. cbv zeta. rewrite deploy_with_port_run, Hhost. simpl.
  rewrite bool_decide_eq_false_2 by (by intros []). simpl.
  unfold launch_containers. rewrite bind_trace, bind_result, ensure_network_trace, Hrange.
  split.
  - destruct (result (ensure_network P self (world_after (prelude w)))); done.
  - intros ->. simpl. by eexists.
Qed.

End Further.

(** ** Reading the port listing *)

Lemma strip_prefix_app (l s rest : string) : Py.strip_prefix l s = Some rest → s = l +:+ rest.
Proof.
  revert s. induction l as [|a l IH]; intros s; simpl; [by intros [= ->]|].
  destruct s as [|b s]; [done|]. case_bool_decide as Hab; [|done].
  intros H%IH. by rewrite Hab, H.
Qed.

Lemma strip_prefix_of_app (l rest : string) : Py.strip_prefix l (l +:+ rest) = Some rest.
Proof. induction l as [|a l IH]; simpl; [done|]. by rewrite bool_decide_eq_true_2. Qed.

Lemma take_drop_span (cl : Py.char_class) (s : string) (j : nat) :
  (j ≤ Py.span cl s)%nat →
  all_in_class cl (Py.take j s) = true
  ∧ String.length (Py.take j s) = j
  ∧ Py.take j s +:+ Py.drop j s = s.
Proof.
  revert s. induction j as [|j IH]; intros s Hj.
  { by destruct s. }
  destruct s as [|c s]; simpl in *; [lia|].
  destruct (Py.in_class cl c) eqn:Hc; [|lia].
  destruct (IH s ltac:(lia)) as (Hall & Hlen & Happ).
  rewrite Hall, Hlen. split; [done|]. split; [done|].
  change (String c (Py.take j s +:+ Py.drop j s) = String c s). by rewrite Happ.
Qed.

Lemma span_app (cl : Py.char_class) (part s : string) :
  all_in_class cl part = true →
  (String.length part ≤ Py.span cl (part +:+ s))%nat
  ∧ Py.take (String.length part) (part +:+ s) = part
  ∧ Py.drop (String.length part) (part +:+ s) = s.
Proof.
  induction part as [|c part IH]; simpl.
  { intros _. split; [lia|]. by destruct s. }
  intros [Hc Hall]%andb_prop. destruct (IH Hall) as (Hspan & Htake & Hdrop).
  rewrite Hc, Htake, Hdrop. split; [lia | done].
Qed.

Lemma backtrack_unfold (k at_least : nat) (group : bool) (s : string)
    (rest : string → option (list string)) :
  Py.backtrack k at_least group s rest
  = match rest (Py.drop k s) with
    | Some groups => Some (if group then Py.take k s :: groups else groups)
    | None =>
        match k with
        | O => None
        | S k' => if (at_least <=? k')%nat then Py.backtrack k' at_least group s rest else None
        end
    end.
Proof. by destruct k. Qed.

(** A repetition that matched took some [j] characters, between the least
    and the most allowed, and the rest of the pattern matched what is left. *)
Lemma backtrack_some (k at_least : nat) (group : bool) (s : string)
    (rest : string → option (list string)) (groups' : list string) :
  (at_least ≤ k)%nat →
  Py.backtrack k at_least group s rest = Some groups' →
  ∃ (j : nat) (groups : list string),
    (at_least ≤ j ≤ k)%nat
    ∧ rest (Py.drop j s) = Some groups
    ∧ groups' = if group then Py.take j s :: groups else groups.
Proof.
  induction k as [|k IH]; intros Hk; rewrite backtrack_unfold;
    destruct (rest (Py.drop _ s)) as [groups|] eqn:Hrest.
  - intros [= <-]. exists O, groups. split; [lia | done].
  - done.
  - intros [= <-]. exists (S k), groups. split; [lia | done].
  - destruct (at_least <=? k)%nat eqn:Hle; [|done].
    apply Nat.leb_le in Hle. intros (j & groups & Hj & Hr & Hg)%IH; [|done].
    exists j, groups. split; [lia | done].
Qed.

(** A repetition matches as soon as one length in its bounds lets the rest
    of the pattern match. *)
Lemma backtrack_is_some (k at_least : nat) (group : bool) (s : string)
    (rest : string → option (list string)) (j : nat) :
  (at_least ≤ j ≤ k)%nat →
  is_Some (rest (Py.drop j s)) →
  is_Some (Py.backtrack k at_least group s rest).
Proof.
  induction k as [|k IH]; intros Hj Hrest; rewrite backtrack_unfold.
  - replace j with O in Hrest by lia. by destruct (rest (Py.drop 0 s)).
  - destruct (rest (Py.drop (S k) s)) as [groups|] eqn:Hk; [done|].
    destruct (decide (j = S k)) as [->|Hne].
    { rewrite Hk in Hrest. by destruct Hrest. }
    rewrite (proj2 (Nat.leb_le at_least k)) by lia.
    apply IH; [lia | done].
Qed.

Lemma fullmatch_matches (p : list Py.re_item) (s : string) (groups : list string) :
  Py.fullmatch p s = Some groups → matches p s groups.
Proof.
  revert s groups. induction p as [|[l | cl at_least group] p IH]; intros s groups; simpl.
  - destruct s; [|done]. intros [= <-]. constructor.
  - destruct (Py.strip_prefix l s) as [s'|] eqn:Hl; [|done].
    apply strip_prefix_app in Hl as ->. intros H%IH. by constructor.
  - destruct (at_least <=? Py.span cl s)%nat eqn:Hle; [|done].
    apply Nat.leb_le in Hle.
    intros (j & gs & Hj & Hrest%IH & ->)%backtrack_some; [|done].
    destruct (take_drop_span cl s j ltac:(lia)) as (Hall & Hlen & Happ).
    rewrite <- Happ at 1. constructor; [done | lia | done].
Qed.

Lemma matches_fullmatch (p : list Py.re_item) (s : string) (groups : list string) :
  matches p s groups → is_Some (Py.fullmatch p s).
Proof.
  induction 1 as [| l p s groups _ IH | cl at_least group p part s groups Hall Hlen _ IH]; simpl.
  - done.
  - by rewrite strip_prefix_of_app.
  - destruct (span_app cl part s Hall) as (Hspan & Htake & Hdrop).
    rewrite (proj2 (Nat.leb_le _ _)) by lia.
    apply (backtrack_is_some _ _ _ _ _ (String.length part)); [lia|].
    by rewrite Hdrop.
Qed.

Lemma digits_fold_nonneg (digits : string) (acc : Z) :
  0 ≤ acc →
  all_in_class Py.Digit digits = true →
  0 ≤ fold_left (fun acc c => 10 * acc + (Z.of_N (Py.code c) - 48))
        (list_ascii_of_string digits) acc.
Proof.
  revert acc. induction digits as [|c digits IH]; intros acc Hacc; simpl; [done|].
  intros [Hc Hall]%andb_prop. apply IH; [|done].
  apply bool_decide_eq_true in Hc. lia.
Qed.

Lemma int_of_digits_nonneg (digits : string) :
  all_in_class Py.Digit digits = true → 0 ≤ Py.int_of_digits digits.
Proof. by apply digits_fold_nonneg. Qed.

Lemma matches_end_inv (s : string) (groups : list string) :
  matches [] s groups → s = "" ∧ groups = [].
Proof. by inversion 1. Qed.

Lemma matches_lit_inv (l : string) (p : list Py.re_item) (s : string) (groups : list string) :
  matches (Py.Lit l :: p) s groups → ∃ s', s = l +:+ s' ∧ matches p s' groups.
Proof. inversion 1; subst. by eexists. Qed.

Lemma matches_many_inv (cl : Py.char_class) (at_least : nat) (group : bool)
    (p : list Py.re_item) (s : string) (groups : list string) :
  matches (Py.Many cl at_least group :: p) s groups →
  ∃ part s' groups',
    s = part +:+ s'
    ∧ all_in_class cl part = true
    ∧ (at_least ≤ String.length part)%nat
    ∧ matches p s' groups'
    ∧ groups = if group then part :: groups' else groups'.
Proof. inversion 1; subst. by do 3 eexists. Qed.

Lemma append_empty_r (s : string) : s +:+ "" = s.
Proof. induction s as [|c s IH]; [done|]. change (String c (s +:+ "") = String c s). by rewrite IH. Qed.

(** The lines of the shape the pattern describes. *)
Lemma port_line_matches (s : string) (groups : list string) :
  matches port_line_pattern s groups
  ↔ ∃ name host digits rest,
      s = "fatman-" +:+ name +:+ " " +:+ host +:+ ":" +:+ digits +:+ "->" +:+ rest
      ∧ groups = [name; digits]
      ∧ name ≠ "" ∧ host ≠ "" ∧ digits ≠ ""
      ∧ all_in_class Py.AnyChar name = true
      ∧ all_in_class Py.AnyChar host = true
      ∧ all_in_class Py.Digit digits = true
      ∧ all_in_class Py.AnyChar rest = true.
Proof.
  unfold port_line_pattern. split.
  - intros (s1 & -> & H)%matches_lit_inv.
    apply matches_many_inv in H as (name & s2 & g2 & -> & Hname & Hn & H & ->).
    apply matches_lit_inv in H as (s3 & -> & H).
    apply matches_many_inv in H as (host & s4 & g4 & -> & Hhost & Hh & H & ->).
    apply matches_lit_inv in H as (s5 & -> & H).
    apply matches_many_inv in H as (digits & s6 & g6 & -> & Hdigits & Hd & H & ->).
    apply matches_lit_inv in H as (s7 & -> & H).
    apply matches_many_inv in H as (rest & s8 & g8 & -> & Hrest & _ & H & ->).
    apply matches_end_inv in H as [-> ->].
    exists name, host, digits, rest. rewrite append_empty_r.
    split; [done|]. split; [done|].
    split; [intros ->; simpl in Hn; lia|]. split; [intros ->; simpl in Hh; lia|].
    split; [intros ->; simpl in Hd; lia|]. done.
  - intros (name & host & digits & rest & -> & -> & Hn & Hh & Hd & Hname & Hhost & Hdigits & Hrest).
    rewrite <- (append_empty_r rest).
    apply matches_lit.
    apply (matches_many Py.AnyChar 1 true); [done | destruct name; simpl; [done | lia] |].
    apply matches_lit.
    apply (matches_many Py.AnyChar 1 false); [done | destruct host; simpl; [done | lia] |].
    apply matches_lit.
    apply (matches_many Py.Digit 1 true); [done | destruct digits; simpl; [done | lia] |].
    apply matches_lit.
    apply (matches_many Py.AnyChar 0 false); [done | lia | constructor].
Qed.

(** X10. A line of the port listing adds a port exactly when, white space
    around it removed, it reads [fatman-], a name, a space, a host part, a
    colon, digits, [->] and a rest, the name, the host part and the digits
    not empty; the port added is not negative and is the number some such
    reading of the line has as its digits.  A line that does not start with
    [fatman-] adds none. *)
Theorem port_of_line_shape (line : string) :
  ((∃ port, port_of_line line = Some port)
   ↔ ∃ name host digits rest,
       Py.strip line
       = "fatman-" +:+ name +:+ " " +:+ host +:+ ":" +:+ digits +:+ "->" +:+ rest
       ∧ name ≠ "" ∧ host ≠ "" ∧ digits ≠ ""
       ∧ all_in_class Py.AnyChar name = true
       ∧ all_in_class Py.AnyChar host = true
       ∧ all_in_class Py.Digit digits = true
       ∧ all_in_class Py.AnyChar rest = true)
  ∧ (∀ port, port_of_line line = Some port →
       0 ≤ port
       ∧ ∃ name host digits rest,
           Py.strip line
           = "fatman-" +:+ name +:+ " " +:+ host +:+ ":" +:+ digits +:+ "->" +:+ rest
           ∧ all_in_class Py.Digit digits = true
           ∧ port = Py.int_of_digits digits)
  ∧ (Py.strip_prefix "fatman-" (Py.strip line) = None → port_of_line line = None).
Proof.
  assert (Hsome : ∀ port, port_of_line line = Some port →
            ∃ name host digits rest,
              Py.strip line
              = "fatman-" +:+ name +:+ " " +:+ host +:+ ":" +:+ digits +:+ "->" +:+ rest
              ∧ port = Py.int_of_digits digits
              ∧ name ≠ "" ∧ host ≠ "" ∧ digits ≠ ""
              ∧ all_in_class Py.AnyChar name = true
              ∧ all_in_class Py.AnyChar host = true
              ∧ all_in_class Py.Digit digits = true
              ∧ all_in_class Py.AnyChar rest = true).
  { intros port. unfold port_of_line.
    destruct (Py.fullmatch port_line_pattern (Py.strip line)) as [groups|] eqn:Hm; [|done].
    apply fullmatch_matches, port_line_matches in Hm
      as (name & host & digits & rest & Hs & -> & Hrest).
    intros [= <-]. by exists name, host, digits, rest. }
  split; [split|split].
  - intros [port (name & host & digits & rest & Hs & _ & Hrest)%Hsome].
    by exists name, host, digits, rest.
  - intros (name & host & digits & rest & Hs & Hrest).
    assert (Hm : matches port_line_pattern (Py.strip line) [name; digits]).
    { apply port_line_matches. by exists name, host, digits, rest. }
    apply matches_fullmatch in Hm as [groups Hm]. unfold port_of_line. rewrite Hm.
    apply fullmatch_matches, port_line_matches in Hm as (n & h & d & r & _ & -> & _).
    by eexists.
  - intros port (name & host & digits & rest & Hs & -> & _ & _ & _ & _ & _ & Hd & _)%Hsome.
    split; [by apply int_of_digits_nonneg|]. by exists name, host, digits, rest.
  - intros Hprefix. destruct (port_of_line line) as [port|] eqn:Hport; [|done].
    destruct (Hsome port eq_refl) as (name & host & digits & rest & Hs & _).
    rewrite Hs in Hprefix. by rewrite strip_prefix_of_app in Hprefix.
Qed.

Lemma occupied_ports_step (occupied : gset Z) (line : string) :
  match Py.fullmatch port_line_pattern (Py.strip line) with
  | Some [_; port] => {[ Py.int_of_digits port ]} ∪ occupied
  | _ => occupied
  end
  = match port_of_line line with
    | Some port => {[ port ]} ∪ occupied
    | None => occupied
    end.
Proof.
  unfold port_of_line.
  by destruct (Py.fullmatch port_line_pattern (Py.strip line)) as [[|a [|b [|c l]]]|].
Qed.

Lemma occupied_ports_fold (lines : list string) (occupied : gset Z) (port : Z) :
  port ∈ fold_left (fun occupied line =>
            match Py.fullmatch port_line_pattern (Py.strip line) with
            | Some [_; port] => {[ Py.int_of_digits port ]} ∪ occupied
            | _ => occupied
            end) lines occupied
  ↔ port ∈ occupied ∨ ∃ line, line ∈ lines ∧ port_of_line line = Some port.
Proof.
  revert occupied. induction lines as [|line lines IH]; intros occupied; cbn [fold_left].
  { split; [by left | intros [? | (line & []%elem_of_nil & _)]; done]. }
  rewrite IH, occupied_ports_step. split.
  - intros [Hin | (l & Hl & Hp)]; [|right; exists l; split; [by right | done]].
    destruct (port_of_line line) as [p|] eqn:Hline; [|by left].
    apply elem_of_union in Hin as [->%elem_of_singleton | Hin]; [|by left].
    right. exists line. split; [by left | done].
  - intros [Hin | (l & Hl & Hp)].
    + left. destruct (port_of_line line); [apply elem_of_union; by right | done].
    + apply elem_of_cons in Hl as [-> | Hl]; [|right; by exists l].
      left. rewrite Hp. apply elem_of_union. left. by apply elem_of_singleton.
Qed.

(** X11. The occupied ports are the ports the lines of the listing add, one
    line at a time, and nothing else; none is negative.  When no line adds
    a port, as when the listing is empty, the port picked is 7000. *)
Theorem occupied_ports_of_lines (output : string) :
  (∀ port, port ∈ occupied_ports output
           ↔ ∃ line, line ∈ Py.splitlines output ∧ port_of_line line = Some port)
  ∧ (∀ port, port ∈ occupied_ports output → 0 ≤ port)
  ∧ ((∀ line, line ∈ Py.splitlines output → port_of_line line = None) →
     occupied_ports output = ∅ ∧ next_port (occupied_ports output) = 7000)
  ∧ occupied_ports "" = ∅.
Proof.
  assert (Hmem : ∀ port, port ∈ occupied_ports output
                  ↔ ∃ line, line ∈ Py.splitlines output ∧ port_of_line line = Some port).
  { intros port. unfold occupied_ports. rewrite occupied_ports_fold.
    split; [intros [[]%elem_of_empty | H]; done | by right]. }
  split; [done|]. split; [|split; [|done]].
  - intros port (line & _ & Hline)%Hmem.
    unfold port_of_line in Hline.
    destruct (Py.fullmatch port_line_pattern (Py.strip line)) as [groups|] eqn:Hm; [|done].
    apply fullmatch_matches, port_line_matches in Hm
      as (name & host & digits & rest & _ & -> & _ & _ & _ & _ & _ & Hd & _).
    injection Hline as <-. by apply int_of_digits_nonneg.
  - intros Hnone.
    assert (Hempty : occupied_ports output = ∅).
    { apply elem_of_equiv_empty_L. intros port (line & Hl & Hp)%Hmem.
      by rewrite (Hnone line Hl) in Hp. }
    split; [done|]. rewrite Hempty. by vm_compute.
Qed.

(** * The plugin at start-up *)

Section PluginCalls.

Context {W : Type}.

Lemma plugin_bind_result {A B} (m : Plugin.M W A) (k : A → Plugin.M W B) (w : W) :
  Plugin.result (Plugin.bind m k w)
  = match Plugin.result (m w) with
    | inl e => inl e
    | inr a => Plugin.result (k a (Plugin.fs_after (m w)))
    end.
Proof. unfold Plugin.bind; simpl. by destruct (Plugin.result (m w)). Qed.

Lemma plugin_bind_trace {A B} (m : Plugin.M W A) (k : A → Plugin.M W B) (w : W) :
  Plugin.trace (Plugin.bind m k w)
  = Plugin.trace (m w)
    ++ match Plugin.result (m w) with
       | inl _ => []
       | inr a => Plugin.trace (k a (Plugin.fs_after (m w)))
       end.
Proof.
  unfold Plugin.bind; simpl. destruct (Plugin.result (m w)); simpl; by rewrite ?app_nil_r.
Qed.


Lemma fs_ops_app (tr1 tr2 : list Plugin.event) :
  Plugin.fs_ops (tr1 ++ tr2) = Plugin.fs_ops tr1 ++ Plugin.fs_ops tr2.
Proof. apply omap_app. Qed.

Lemma issues_ret {A} (a : A) : Plugin.issues (Plugin.ret (W := W) a) [].
Proof. intros w. by exists O. Qed.

Lemma issues_bind {A B} (m : Plugin.M W A) (k : A → Plugin.M W B) (ops1 ops2 : list Plugin.fs_op) :
  Plugin.issues m ops1 → (∀ a, Plugin.issues (k a) ops2) →
  Plugin.issues (Plugin.bind m k) (ops1 ++ ops2).
Proof.
  intros Hm Hk w. rewrite plugin_bind_trace, plugin_bind_result, fs_ops_app.
  destruct (Hm w) as (k1 & Hk1 & Htr1 & Hret1).
  destruct (Plugin.result (m w)) as [e|a] eqn:R.
  - exists k1. rewrite length_app. split; [lia|]. split; [|discriminate].
    simpl. by rewrite app_nil_r, Htr1, take_app_le.
  - destruct (Hk a (Plugin.fs_after (m w))) as (k2 & Hk2 & Htr2 & Hret2).
    exists (length ops1 + k2)%nat. rewrite length_app. split; [lia|].
    rewrite (Hret1 a eq_refl) in Htr1. rewrite firstn_all in Htr1.
    split; [by rewrite Htr1, Htr2, take_app_add|].
    intros b Hb. by rewrite (Hret2 b Hb).
Qed.

Lemma issues_for_each {A} (xs : list A) (body : A → Plugin.M W unit)
    (f : A → list Plugin.fs_op) :
  (∀ x, Plugin.issues (body x) (f x)) →
  Plugin.issues (Plugin.for_each xs body) (flat_map f xs).
Proof.
  intros Hbody. induction xs as [|x xs IH]; simpl; [apply issues_ret|].
  apply issues_bind; [apply Hbody | intros _; apply IH].
Qed.

End PluginCalls.

Section PluginInit.

Variable F : Plugin.Files.

Lemma fs_run_outcome (op : Plugin.fs_op) (w : Plugin.FS F) :
  Plugin.trace (Plugin.fs F op w) = [Plugin.Fs op]
  ∧ Plugin.result (Plugin.fs F op w) = (Plugin.fs_run F op w).1
  ∧ Plugin.fs_after (Plugin.fs F op w) = (Plugin.fs_run F op w).2.
Proof. unfold Plugin.fs. by destruct (Plugin.fs_run F op w) as [[errno|value] w']. Qed.

Lemma issues_fs (op : Plugin.fs_op) : Plugin.issues (Plugin.fs F op) [op].
Proof.
  intros w. exists 1%nat. destruct (fs_run_outcome op w) as (-> & _ & _).
  split; [done|]. split; done.
Qed.

Lemma issues_log_info (msg : string) : Plugin.issues (Plugin.log_info F msg) [].
Proof. intros w. by exists O. Qed.

Lemma issues_prepare_credentials (plugin_config : Plugin.PluginConfig.t) :
  Plugin.issues (Plugin.prepare_credentials F plugin_config)
                (Plugin.credentials_ops plugin_config).
Proof.
  unfold Plugin.prepare_credentials, Plugin.credentials_ops.
  apply issues_bind.
  - destruct (Py.truthy_opt_str _); [|apply issues_ret].
    apply (issues_bind _ _ [_] [_; _]); [apply issues_fs|]. intros _.
    apply (issues_bind _ _ [_] [_]); [apply issues_fs|]. intros _.
    apply (issues_bind _ _ [_] []); [apply issues_fs|]. intros _.
    apply issues_log_info.
  - intros _. destruct (Plugin.truthy_items _); [|apply issues_ret].
    apply (issues_bind _ _ [_] _); [apply issues_fs|]. intros _.
    rewrite <- (app_nil_r (flat_map _ _)).
    apply issues_bind; [|intros _; apply issues_log_info].
    apply issues_for_each. intros item.
    apply (issues_bind _ _ [_] [_]); [apply issues_fs|]. intros _.
    apply (issues_bind _ _ [_] []); [apply issues_fs|]. intros _.
    apply issues_ret.
Qed.

(** [__init__] is the query of the home directory, the credentials and the
    last line of the log. *)
Lemma init_stages (plugin_config : Plugin.PluginConfig.t) (w : Plugin.FS F) :
  Plugin.__init__ F plugin_config w
  = Plugin.bind (Plugin.fs F (Plugin.IsDir Plugin.home_dir))
      (fun is_dir : bool =>
         Plugin.bind (if is_dir then Plugin.prepare_credentials F plugin_config
                      else Plugin.ret tt)
                     (fun _ => Plugin.loaded F plugin_config)) w.
Proof. reflexivity. Qed.

Lemma paired_app (ops1 ops2 : list Plugin.fs_op) :
  Plugin.paired ops1 → Plugin.paired ops2 → Plugin.paired (ops1 ++ ops2).
Proof. induction 1; intros H2; simpl; [done | constructor; auto | constructor; auto]. Qed.

Lemma credentials_ops_paired (plugin_config : Plugin.PluginConfig.t) :
  Plugin.paired (Plugin.credentials_ops plugin_config).
Proof.
  unfold Plugin.credentials_ops. apply paired_app.
  - destruct (Py.truthy_opt_str _); repeat constructor.
  - destruct (Plugin.truthy_items _); [|constructor].
    constructor. induction (default [] _) as [|item items IH]; simpl; by constructor.
Qed.

Lemma paired_after_write (ops : list Plugin.fs_op) :
  Plugin.paired ops →
  ∀ (i : nat) p content,
    ops !! i = Some (Plugin.WriteText p content) → ops !! S i = Some (Plugin.Chmod p 384).
Proof.
  induction 1 as [|dir exist_ok ops _ IH | q c ops _ IH]; intros i p content.
  - done.
  - destruct i as [|i]; [done | apply IH].
  - destruct i as [|[|i]]; [by intros [= -> ->] | done | apply IH].
Qed.

Lemma paired_before_chmod (ops : list Plugin.fs_op) :
  Plugin.paired ops →
  ∀ (i : nat) p mode,
    ops !! i = Some (Plugin.Chmod p mode) →
    mode = 384%N ∧ ∃ j content, i = S j ∧ ops !! j = Some (Plugin.WriteText p content).
Proof.
  induction 1 as [|dir exist_ok ops _ IH | q c ops _ IH]; intros i p mode.
  - done.
  - destruct i as [|i]; [done|]. intros (Hm & j & content & -> & Hj)%IH.
    split; [done|]. by exists (S j), content.
  - destruct i as [|[|i]]; [done | |].
    + intros [= -> ->]. split; [done|]. by exists O, c.
    + intros (Hm & j & content & -> & Hj)%IH.
      split; [done|]. by exists (S (S j)), content.
Qed.

(** The operations of a start-up: the query, then a prefix of the
    credentials, all of them or none when it returns. *)
Lemma init_fs_ops (plugin_config : Plugin.PluginConfig.t) (w : Plugin.FS F) :
  ∃ k : nat,
    (k ≤ length (Plugin.credentials_ops plugin_config))%nat
    ∧ Plugin.fs_ops (Plugin.trace (Plugin.__init__ F plugin_config w))
      = Plugin.IsDir Plugin.home_dir :: take k (Plugin.credentials_ops plugin_config)
    ∧ ((Plugin.fs_run F (Plugin.IsDir Plugin.home_dir) w).1 ≠ inr true → k = O)
    ∧ (∀ plugin, Plugin.result (Plugin.__init__ F plugin_config w) = inr plugin →
         plugin = {| Plugin.plugin_config := plugin_config |}
         ∧ ((Plugin.fs_run F (Plugin.IsDir Plugin.home_dir) w).1 = inr true →
            k = length (Plugin.credentials_ops plugin_config)))
    ∧ ((∃ errno, Plugin.result (Plugin.__init__ F plugin_config w) = inl errno)
       ∨ Plugin.paired (take k (Plugin.credentials_ops plugin_config))).
Proof.
  rewrite init_stages, plugin_bind_trace, plugin_bind_result.
  destruct (fs_run_outcome (Plugin.IsDir Plugin.home_dir) w) as (-> & -> & ->).
  destruct (Plugin.fs_run F (Plugin.IsDir Plugin.home_dir) w).1 as [errno|[]] eqn:Hprobe.
  - exists O. split; [lia|]. split; [done|]. split; [done|].
    split; [discriminate|]. left. by eexists.
  - rewrite plugin_bind_trace, plugin_bind_result.
    destruct (issues_prepare_credentials plugin_config (Plugin.fs_run F (Plugin.IsDir Plugin.home_dir) w).2)
      as (k & Hk & Htr & Hret).
    exists k. split; [done|]. split.
    { simpl. rewrite fs_ops_app, Htr.
      destruct (Plugin.result (Plugin.prepare_credentials F plugin_config _));
        simpl; by rewrite app_nil_r. }
    split; [done|].
    destruct (Plugin.result (Plugin.prepare_credentials F plugin_config _)) as [e|[]] eqn:R.
    + split; [discriminate|]. left. by eexists.
    + simpl. split; [intros plugin [= <-]; split; [done | intros _; by apply (Hret tt)]|].
      right. rewrite (Hret tt eq_refl), firstn_all. apply credentials_ops_paired.
  - exists O. split; [lia|]. split; [done|]. split; [done|].
    split; [by intros plugin [= <-]|]. right. rewrite take_0. constructor.
Qed.


(** X13. Whatever the file system answers, every file the start-up writes
    gets the mode 0o600 by the very next operation, unless the write was the
    last operation and the start-up failed; no other mode is ever set, and
    a mode is set only on the file written just before.  When the start-up
    returns, every file written has had its mode set. *)
Theorem init_restricts_files (plugin_config : Plugin.PluginConfig.t) (w : Plugin.FS F) :
  let o := Plugin.__init__ F plugin_config w in
  let ops := Plugin.fs_ops (Plugin.trace o) in
  (∀ (i : nat) p content,
     ops !! i = Some (Plugin.WriteText p content) →
     ops !! S i = Some (Plugin.Chmod p 384)
     ∨ (S i = length ops ∧ ∃ errno, Plugin.result o = inl errno))
  ∧ (∀ (i : nat) p mode,
       ops !! i = Some (Plugin.Chmod p mode) →
       mode = 384%N ∧ ∃ j content, i = S j ∧ ops !! j = Some (Plugin.WriteText p content))
  ∧ (∀ plugin, Plugin.result o = inr plugin →
       ∀ p content, Plugin.WriteText p content ∈ ops → Plugin.Chmod p 384 ∈ ops).
Proof.
  intros o ops.
  destruct (init_fs_ops plugin_config w) as (k & Hk & Hops & _ & _ & Hend).
  fold o in Hops, Hend. fold ops in Hops.
  pose proof (credentials_ops_paired plugin_config) as Hpaired.
  assert (Hwrite : ∀ (i : nat) p content,
            ops !! i = Some (Plugin.WriteText p content) →
            ops !! S i = Some (Plugin.Chmod p 384)
            ∨ (S i = length ops ∧ ¬ Plugin.paired (take k (Plugin.credentials_ops plugin_config)))).
  { intros i p content. rewrite Hops. destruct i as [|i]; [done|]. simpl.
    intros Hi. pose proof Hi as [Hfull Hlt]%lookup_take_Some.
    pose proof (paired_after_write _ Hpaired _ _ _ Hfull) as Hnext.
    destruct (decide (S i < k)%nat) as [Hin | Hout].
    - left. by rewrite lookup_take_lt.
    - right. apply lookup_lt_Some in Hnext.
      split; [rewrite length_take; lia|].
      intros Hp. pose proof (paired_after_write _ Hp _ _ _ Hi) as Hn.
      apply lookup_lt_Some in Hn. rewrite length_take in Hn. lia. }
  split; [|split].
  - intros i p content Hi. destruct (Hwrite i p content Hi) as [Hn | [Hlast Hnot]]; [by left|].
    right. split; [done|]. by destruct Hend.
  - intros i p mode. rewrite Hops. destruct i as [|i]; [done|]. simpl.
    intros [Hfull Hlt]%lookup_take_Some.
    destruct (paired_before_chmod _ Hpaired _ _ _ Hfull) as (Hm & j & content & -> & Hj).
    split; [done|]. exists (S j), content. split; [done|]. simpl.
    rewrite lookup_take_lt by lia. done.
  - intros plugin Hplugin p content [i Hi]%list_elem_of_lookup.
    destruct (Hwrite i p content Hi) as [Hn | [_ Hnot]].
    + apply list_elem_of_lookup. by exists (S i).
    + destruct Hend as [[errno He] | Hp]; [|done].
      fold o in Hplugin. rewrite Hplugin in He. discriminate.
Qed.

End PluginInit.

(** * The further properties on the daemon of [Docker] *)

(** X2 on the deployment of three containers on an empty host. *)
Lemma deploy_descriptor_witness :
  result Runs.three_containers
  = inr (descriptor Docker.deployer Docker.adder "latest" 1700000000 7000)
  ∧ ∃ fatman_port,
      result (deploy_prelude Docker.platform Docker.deployer Docker.adder Docker.empty_host)
      = inr fatman_port
      ∧ 7000 ≤ fatman_port ≤ 8000
      ∧ FatmanDto.internal_name (descriptor Docker.deployer Docker.adder "latest" 1700000000 7000)
        = "10.0.0.7:" +:+ Py.str_of_int fatman_port.
Proof.
  assert (Hres : result Runs.three_containers
                 = inr (descriptor Docker.deployer Docker.adder "latest" 1700000000 7000))
    by (by vm_compute).
  pose proof (deploy_descriptor Docker.platform Docker.deployer Docker.adder Docker.config
                Docker.no_plugins "latest" ∅ Docker.family 3 Docker.empty_host) as Hdto.
  destruct (Hdto _ Hres) as (hostname & port & Hhost & _ & Hpre & Hbounds & _ & Hname & _).
  split; [exact Hres|]. exists port. split; [exact Hpre|]. split; [exact Hbounds|].
  injection Hhost as <-. exact Hname.
Defined.

(** X3 on the host with a leftover container: the launches of the indices
    0 and 1 succeed, the third meets the container that was not removed. *)
Lemma deploy_failure_keeps_launched_witness :
  result Leftover.redeploy_three = inl (CommandError 125)
  ∧ ∃ k : nat,
      (0 < k ≤ 3)%nat
      ∧ map container_name (launched (trace Leftover.redeploy_three))
        = map (fun i : nat => get_container_name Runs.base (Z.of_nat i)) (seq 0 k).
Proof.
  assert (Hres : result Leftover.redeploy_three = inl (CommandError 125)) by (by vm_compute).
  assert (Hlaunched : launched (trace Leftover.redeploy_three) ≠ [])
    by (vm_compute; discriminate).
  pose proof (deploy_failure_keeps_launched Docker.platform Docker.deployer Docker.adder
                Docker.config Docker.no_plugins "latest" ∅ Docker.family 3
                Leftover.host_with_three) as Hkeeps.
  destruct (Hkeeps _ Hres Hlaunched) as (_ & _ & _ & k & Hk & _ & _ & _ & Hnames).
  split; [exact Hres|]. exists k. split; [exact Hk | exact Hnames].
Defined.

(** The containers on that host after the failed redeployment. *)
Example leftover_after_redeploy :
  map Docker.cname (Docker.containers (world_after Leftover.redeploy_three))
  = ["fatman-adder-v-0-0-1-2"; "fatman-adder-v-0-0-1"; "fatman-adder-v-0-0-1-1"].
Proof. by vm_compute. Qed.

(** X4 on the deployment whose runtime variables bind [FATMAN_NAME]. *)
Lemma deploy_fatman_raises_witness :
  result Runs.deploy_with_conflict
  = inl (RuntimeError "found illegal runtime env vars, which conflict with reserved names: "
                      {[ "FATMAN_NAME" ]})
  ∧ (is_command_error
       (RuntimeError "found illegal runtime env vars, which conflict with reserved names: "
                     {[ "FATMAN_NAME" ]})
     ∨ (RuntimeError "found illegal runtime env vars, which conflict with reserved names: "
                     {[ "FATMAN_NAME" ]}
        = AssertionError "hostname of a docker daemon must be set"
        ∧ Py.truthy_opt_str (InfrastructureConfig.hostname (infra_config Docker.deployer)) = false)
     ∨ (∃ cs : gset string,
          RuntimeError "found illegal runtime env vars, which conflict with reserved names: "
                       {[ "FATMAN_NAME" ]}
          = RuntimeError "found illegal runtime env vars, which conflict with reserved names: " cs
          ∧ cs ≠ ∅ ∧ cs ⊆ dom Runs.colliding)).
Proof.
  assert (Hres : result Runs.deploy_with_conflict
                 = inl (RuntimeError
                          "found illegal runtime env vars, which conflict with reserved names: "
                          {[ "FATMAN_NAME" ]})) by (by vm_compute).
  pose proof (deploy_fatman_raises Docker.platform Docker.deployer Docker.adder Docker.config
                Docker.no_plugins "latest" Runs.colliding Docker.family 1 Docker.empty_host)
    as Hraises.
  split; [exact Hres | exact (Hraises _ Hres)].
Defined.

(** X6 on the host with a leftover container, for the index 2. *)
Lemma other_slots_never_removed_witness :
  (2 ≠ 0 ∧ 2 ≠ 1)
  ∧ (Shell (removal Docker.deployer "fatman-adder-v-0-0-1-2")
     ∉ trace (delete_fatman Docker.platform Docker.deployer "adder" "0.0.1"
                Leftover.host_with_three))
  ∧ (Shell (removal Docker.deployer "fatman-adder-v-0-0-1-2") ∉ trace Leftover.redeploy_three).
Proof.
  assert (H0 : 2 ≠ 0) by discriminate.
  assert (H1 : 2 ≠ 1) by discriminate.
  pose proof (other_slots_never_removed Docker.platform Docker.deployer Docker.adder
                Docker.config Docker.no_plugins "latest" ∅ Docker.family 3
                Leftover.host_with_three 2 H0 H1) as (Hdelete & _ & Hdeploy).
  split; [by split|]. split; [exact Hdelete | exact Hdeploy].
Defined.

(** X7 on a host where the network exists: its creation fails with code 1
    and the two containers are launched all the same. *)
Lemma network_creation_tolerance_witness :
  (run_command Docker.platform (network_creation Docker.deployer)
     (world_after (deploy_prelude Docker.platform Docker.deployer Docker.adder
                     Docker.host_with_adder))).1 = inl 1
  ∧ result Leftover.redeploy_two
    = inr (descriptor Docker.deployer Docker.adder "latest" 1700000000 7000)
  ∧ map Docker.cname (Docker.containers (world_after Leftover.redeploy_two))
    = ["fatman-adder-v-0-0-1"; "fatman-adder-v-0-0-1-1"].
Proof.
  assert (Hcode : (run_command Docker.platform (network_creation Docker.deployer)
                     (world_after (deploy_prelude Docker.platform Docker.deployer Docker.adder
                                     Docker.host_with_adder))).1 = inl 1) by (by vm_compute).
  pose proof (network_creation_tolerance Docker.platform Docker.deployer Docker.adder
                Docker.config Docker.no_plugins "latest" ∅ Docker.family 2
                Docker.host_with_adder 7000) as Htolerance.
  cbv zeta in Htolerance.
  destruct Htolerance as [_ Hgoes_on]; [by vm_compute | reflexivity | by vm_compute |].
  destruct (Hgoes_on (or_introl Hcode)) as (Hres & _ & Hworld).
  split; [exact Hcode|]. split.
  - etransitivity; [exact Hres | by vm_compute].
  - etransitivity; [exact (f_equal (fun h => map Docker.cname (Docker.containers h)) Hworld)|].
    by vm_compute.
Defined.

(** X8 on the deployment of three containers. *)
Lemma launch_env_vars_composed_witness :
  length (launched (trace Runs.three_containers)) = 3%nat
  ∧ ∀ r, r ∈ launched (trace Runs.three_containers) →
         env_vars r !! "FATMAN_NAME" = Some "adder"
         ∧ env_vars r !! "PUB_URL" = Some "http://pub:7005/pub".
Proof.
  split; [by vm_compute|]. intros r Hr.
  pose proof (launch_env_vars_composed Docker.platform Docker.deployer Docker.adder
                Docker.config Docker.no_plugins "latest" ∅ Docker.family 3 Docker.empty_host
                r) as Hreach.
  cbv zeta in Hreach.
  destruct (Hreach Hr) as (_ & Hpub & Hname & _ & _ & _ & Hkeys).
  split.
  - destruct (Hkeys "FATMAN_NAME" "adder" (or_introl Hname)) as [_ Hvalue].
    apply Hvalue. reflexivity.
  - destruct (Hkeys "PUB_URL" "http://pub:7005/pub" (or_introl Hpub)) as [_ Hvalue].
    apply Hvalue. reflexivity.
Defined.

(** X9 on a deployment with no container. *)
Lemma deploy_no_container_witness :
  launched (trace Leftover.deploy_none) = []
  ∧ ∃ dto, result Leftover.deploy_none = inr dto ∧ FatmanDto.status dto = "running".
Proof.
  assert (Hnum : 0 ≤ 0) by discriminate.
  pose proof (deploy_no_container Docker.platform Docker.deployer Docker.adder Docker.config
                Docker.no_plugins "latest" ∅ Docker.family 0 Docker.empty_host Hnum)
    as [Hnone Hreturns].
  split; [exact Hnone|].
  destruct (Hreturns 7000) as [_ Hdto]; [by vm_compute | reflexivity | by vm_compute |].
  apply Hdto. by vm_compute.
Defined.

(** ** The start-up on a disk *)

(** With the home directory: the files of the credentials are written, each
    with the mode 0o600. *)
Example init_with_home :
  Plugin.files (Plugin.fs_after
                  (Plugin.__init__ Plugin.disk_files Plugin.credentials Plugin.with_home))
  = [(Plugin.Div (Plugin.Div Plugin.home_dir ".docker") "config.json", ("{ }", 384%N));
     (Plugin.Div (Plugin.Div Plugin.home_dir ".ssh") "id_rsa", ("KEY", 384%N));
     (Plugin.Div (Plugin.Div Plugin.home_dir ".ssh") "config", ("Host *", 384%N))]
  ∧ Plugin.fs_ops (Plugin.trace
                     (Plugin.__init__ Plugin.disk_files Plugin.credentials Plugin.with_home))
    = Plugin.IsDir Plugin.home_dir :: Plugin.credentials_ops Plugin.credentials.
Proof. split; by vm_compute. Qed.

(** Without it: nothing is written and the plugin is loaded. *)
Example init_without_home :
  Plugin.__init__ Plugin.disk_files Plugin.credentials Plugin.without_home
  = Plugin.Run (inr {| Plugin.plugin_config := Plugin.credentials |}) Plugin.without_home
      [Plugin.Fs (Plugin.IsDir Plugin.home_dir);
       Plugin.LogInfo "Docker Daemon plugin loaded with 0 infrastructure targets"].
Proof. by vm_compute. Qed.
